(** * ImtConflictPerfTestGen.py: the generator of ImtConflictPerfTest.java

    A shallow embedding of
    [apct-tests/perftests/core/src/android/libcore/ImtConflictPerfTestGen.py]
    and the properties of the text it writes to standard output.

    The script is a sequence of [print] calls, possibly cut short by
    [sys.exit]. It is embedded in a writer monad [Script] that records every
    [print] call and the way the script ends. Python integers are unbounded:
    they are [Z].

    The script is embedded twice. In [generate] and [main] every integer
    is printed in full by [str]. In [generate_checked] and [main_checked]
    a conversion between an integer and its decimal text raises
    [ValueError] when more than [max_str_digits] = 4300 digits are
    involved, as CPython does by default since 3.11; the exception is not
    caught by the script, which then ends with exit status 1. The two
    embeddings agree whenever [20 * |imt_size| <= 10 ^ 4300]. *)

From Stdlib Require Import ZArith String Ascii List Lia.
From stdpp Require Import base tactics option list list_numbers strings pretty.

Local Open Scope Z_scope.

(** ** The Python builtins the script uses *)

Module Py.

(** [str(x)] and ["{}".format(x)] for an integer [x]: its decimal digits,
    with a leading minus sign when negative. *)
Definition str (x : Z) : string := pretty x.

(** ["{:02d}".format(x)]: the decimal digits of [x], padded with zeros
    after the sign up to a total width of two characters. *)
Definition format_02d (x : Z) : string :=
  let sign := if x <? 0 then "-" else "" in
  let digits := pretty (Z.abs x) in
  let pad := (2 - String.length sign - String.length digits)%nat in
  sign +:+ String.concat "" (replicate pad "0") +:+ digits.

(** [range(n)]: 0, 1, ..., n-1, empty when [n <= 0]. *)
Definition range (n : Z) : list Z := seqZ 0 n.

(** [sep.join(l)]. *)
Definition join (sep : string) (l : list string) : string :=
  String.concat sep l.

(** The newline that [print] appends and that separates the lines of a
    triple-quoted literal. *)
Definition nl : string := String "010"%char "".

(** The double quote character. *)
Definition dq : string := String "034"%char "".

(** *** [int(s)] on an ASCII string

    Surrounding whitespace is dropped; then an optional sign and a
    non-empty run of decimal digits, where single underscores may separate
    digits. [None] stands for [ValueError]. *)

(** Space, tab, line feed, vertical tab, form feed, carriage return. *)
Definition is_space (c : ascii) : bool :=
  let n := nat_of_ascii c in
  ((9 <=? n) && (n <=? 13) || (n =? 32))%nat.

Definition digit_val (c : ascii) : option Z :=
  let n := nat_of_ascii c in
  if ((48 <=? n) && (n <=? 57))%nat then Some (Z.of_nat n - 48) else None.

Fixpoint lstrip (l : list ascii) : list ascii :=
  match l with
  | c :: l' => if is_space c then lstrip l' else l
  | [] => []
  end.

Definition strip (l : list ascii) : list ascii :=
  rev (lstrip (rev (lstrip l))).

(** [after_digit] tells whether the previous character was a digit: an
    underscore and the end of the string are accepted only there. *)
Fixpoint digits (acc : Z) (after_digit : bool) (l : list ascii) : option Z :=
  match l with
  | [] => if after_digit then Some acc else None
  | c :: l' =>
      match digit_val c with
      | Some d => digits (10 * acc + d) true l'
      | None =>
          if (Ascii.eqb c "_" && after_digit)%bool
          then digits acc false l' else None
      end
  end.

(** An optional sign, then the digits. *)
Definition int_literal (l : list ascii) : option Z :=
  match l with
  | "-"%char :: l => Z.opp <$> digits 0 false l
  | "+"%char :: l => digits 0 false l
  | l => digits 0 false l
  end.

(** The default of [sys.get_int_max_str_digits()]: a conversion between
    an integer and a decimal text of more digits raises [ValueError]. The
    sign and the underscores are not counted. *)
Definition max_str_digits : nat := 4300.

Definition is_digit (c : ascii) : bool :=
  match digit_val c with
  | Some _ => true
  | None => false
  end.

Definition digit_count (l : list ascii) : nat :=
  length (List.filter is_digit l).

(** [int(s)] for an ASCII string [s]; a [s] with bytes outside ASCII is
    outside this model (the builtin also reads the decimal digits and the
    white space of other scripts). *)
Definition int (s : string) : option Z :=
  let l := strip (list_ascii_of_string s) in
  if (max_str_digits <? digit_count l)%nat then None else int_literal l.

(** The number of decimal digits of [x], and whether [str(x)] and
    ["{}".format(x)] are within the limit. *)
Definition ndigits (x : Z) : nat := String.length (str (Z.abs x)).

Definition fits (x : Z) : bool := (ndigits x <=? max_str_digits)%nat.

(** [10 ^ max_str_digits]: the integers below it, in absolute value, are
    those of at most [max_str_digits] digits. *)
Definition digit_bound : Z := 10 ^ 4300.

End Py.

(** ** The script monad: recorded [print] calls and termination *)

(** A script either runs to its end with a value, or stops in [sys.exit]. *)
Inductive outcome (A : Type) : Type :=
  | Done (a : A)
  | Exited (code : Z).
Arguments Done {A} a.
Arguments Exited {A} code.

(** The strings handed to [print], in order, and how the script ended. *)
Definition Script (A : Type) : Type := list string * outcome A.

Definition ret {A} (a : A) : Script A := ([], Done a).

Definition bind {A B} (m : Script A) (f : A -> Script B) : Script B :=
  match m with
  | (out, Done a) => let '(out', r) := f a in (out ++ out', r)
  | (out, Exited c) => (out, Exited c)
  end.

Definition print (s : string) : Script unit := ([s], Done tt).

Definition sys_exit {A} (code : Z) : Script A := ([], Exited code).

Declare Scope script_scope.
Delimit Scope script_scope with script.
Bind Scope script_scope with Script.
Notation "c1 ;; c2" := (bind c1 (fun _ => c2))
  (at level 100, c2 at level 200, right associativity) : script_scope.
Notation "x <- c1 ;; c2" := (bind c1 (fun x => c2))
  (at level 100, c1 at next level, c2 at level 200, right associativity)
  : script_scope.

(** [for x in l: body x]. *)
Fixpoint for_ {A} (l : list A) (body : A -> Script unit) : Script unit :=
  match l with
  | [] => ret tt
  | x :: l' => bind (body x) (fun _ => for_ l' body)
  end.

(** What the process leaves behind: the [print] calls and the exit status
    (0 when the script runs to its end). *)
Definition printed {A} (m : Script A) : list string := m.1.

Definition exit_status {A} (m : Script A) : Z :=
  match m.2 with
  | Done _ => 0
  | Exited c => c
  end.

(** The bytes on standard output: [print] writes its argument and a newline. *)
Fixpoint stdout_text (calls : list string) : string :=
  match calls with
  | [] => ""
  | s :: calls' => s +:+ Py.nl +:+ stdout_text calls'
  end.

(** ** The script *)

Import Py.

Definition max_conflict_depth : Z := 20.

Definition usage : string :=
  "Usage: python ImtConflictPerfTestGen.py <IMT_SIZE>".

(** A triple-quoted literal, line by line. *)
Definition unlines (l : list string) : string := join nl l.

Definition license : string := unlines [
  "/*";
  " * Copyright 2016 The Android Open Source Project";
  " *";
  " * Licensed under the Apache License, Version 2.0 (the " +:+ dq +:+ "License" +:+ dq +:+ ");";
  " * you may not use this file except in compliance with the License.";
  " * You may obtain a copy of the License at";
  " *";
  " *      http://www.apache.org/licenses/LICENSE-2.0";
  " *";
  " * Unless required by applicable law or agreed to in writing, software";
  " * distributed under the License is distributed on an " +:+ dq +:+ "AS IS" +:+ dq +:+ " BASIS,";
  " * WITHOUT WARRANTIES OR CONDITIONS OF ANY KIND, either express or implied.";
  " * See the License for the specific language governing permissions and";
  " * limitations under the License.";
  " */";
  "" ].

Definition description : string := unlines [
  "";
  "/**";
  " * This file is script-generated by ImtConflictPerfTestGen.py.";
  " * It measures the performance impact of conflicts in interface method tables.";
  " * Run `python ImtConflictPerfTestGen.py > ImtConflictPerfTest.java` to regenerate.";
  " *";
  " * Each interface has 64 methods, which is the current size of an IMT. C0 implements";
  " * one interface, C1 implements two, C2 implements three, and so on. The intent";
  " * is that C0 has no conflicts in its IMT, C1 has depth-2 conflicts in";
  " * its IMT, C2 has depth-3 conflicts, etc. This is currently guaranteed by";
  " * the fact that we hash interface methods by taking their method index modulo 64.";
  " * (Note that a " +:+ dq +:+ "conflict depth" +:+ dq +:+ " of 1 means no conflict at all.)";
  " */" ].

Definition imports : string := unlines [
  "";
  "import android.perftests.utils.BenchmarkState;";
  "import android.perftests.utils.PerfStatusReporter;";
  "import android.test.suitebuilder.annotation.LargeTest;";
  "";
  "import androidx.test.runner.AndroidJUnit4;";
  "";
  "import org.junit.Before;";
  "import org.junit.Rule;";
  "import org.junit.Test;";
  "import org.junit.runner.RunWith;";
  "" ].

Section Generator.

Local Open Scope script_scope.

(** The table size read from the command line. *)
Variable imt_size : Z.

(** Lines 59-60 and 73-74: license, package, imports, documentation. *)
Definition emit_header : Script unit :=
  print license ;;
  print "package android.libcore;" ;;
  print imports ;;
  print description.

(** Lines 76-81: the opening of the test class. *)
Definition emit_class_open : Script unit :=
  print "@RunWith(AndroidJUnit4.class)" ;;
  print "@LargeTest" ;;
  print "public class ImtConflictPerfTest {" ;;
  print "    @Rule" ;;
  print "    public PerfStatusReporter mPerfStatusReporter = new PerfStatusReporter();" ;;
  print "".

(** Lines 86-88: the warm-up of class [i]. *)
Definition setup_class (i : Z) : Script unit :=
  print ("        C" +:+ str i +:+ " c" +:+ str i +:+ " = new C" +:+ str i +:+ "();") ;;
  for_ (range (i + 1)) (fun j =>
    print ("        callF" +:+ str (imt_size * j) +:+ "(c" +:+ str i +:+ ");")).

(** Lines 83-89: the setup method. *)
Definition emit_setup : Script unit :=
  print "    @Before" ;;
  print "    public void setup() {" ;;
  for_ (range max_conflict_depth) setup_class ;;
  print "    }".

(** Lines 93-103: the benchmark method of conflict depth [i + 1]. *)
Definition benchmark_method (i : Z) : Script unit :=
  print "    @Test" ;;
  print ("    public void timeConflictDepth" +:+ format_02d (i + 1) +:+ "() {") ;;
  print ("        C" +:+ str i +:+ " c" +:+ str i +:+ " = new C" +:+ str i +:+ "();") ;;
  print "        BenchmarkState state = mPerfStatusReporter.getBenchmarkState();" ;;
  print "        while (state.keepRunning()) {" ;;
  for_ (range max_conflict_depth) (fun j =>
    print ("            callF" +:+ str (imt_size * (j `mod` (i + 1)))
           +:+ "(c" +:+ str i +:+ ");")) ;;
  print "        }" ;;
  print "    }".

(** Lines 92-103. *)
Definition emit_benchmarks : Script unit :=
  for_ (range max_conflict_depth) benchmark_method.

(** Line 107: the dispatch helper of interface [i]. *)
Definition dispatch_helper (i : Z) : Script unit :=
  print ("    public void callF" +:+ str (imt_size * i) +:+ "(I" +:+ str i
         +:+ " i) { i.f" +:+ str (imt_size * i) +:+ "(); }").

(** Lines 106-107. *)
Definition emit_helpers : Script unit :=
  for_ (range max_conflict_depth) dispatch_helper.

(** Lines 111-112: the declaration of class [i]. *)
Definition class_decl (i : Z) : Script unit :=
  let interfaces := join ", " ((fun j => "I" +:+ str j) <$> range (i + 1)) in
  print ("    static class C" +:+ str i +:+ " implements " +:+ interfaces +:+ " {}").

(** Lines 110-112. *)
Definition emit_classes : Script unit :=
  for_ (range max_conflict_depth) class_decl.

(** Lines 116-119: the declaration of interface [i]. *)
Definition interface_decl (i : Z) : Script unit :=
  print ("    interface I" +:+ str i +:+ " {") ;;
  for_ (range imt_size) (fun j =>
    print ("        default void f" +:+ str (i * imt_size + j) +:+ "() {}")) ;;
  print "    }".

(** Lines 115-119. *)
Definition emit_interfaces : Script unit :=
  for_ (range max_conflict_depth) interface_decl.

(** Lines 59-121: everything after the argument has been read. *)
Definition generate : Script unit :=
  emit_header ;;
  emit_class_open ;;
  emit_setup ;;
  emit_benchmarks ;;
  emit_helpers ;;
  emit_classes ;;
  emit_interfaces ;;
  print "}".

End Generator.

Section Main.

Local Open Scope script_scope.

(** The builtin [int] applied to a command-line argument; [None] stands
    for [ValueError]. The script's behaviour is stated for any such
    conversion; [Py.int] is the ASCII instance. *)
Variable int : string -> option Z.

(** Lines 20-25, then the rest of the module. [argv !! 1 = None] is the
    [IndexError] of [sys.argv[1]]. *)
Definition main (argv : list string) : Script unit :=
  match argv !! 1%nat ≫= int with
  | Some imt_size => generate imt_size
  | None => print usage ;; sys_exit 1
  end.

End Main.

(** The script with Python's own conversion. *)
Definition program : list string -> Script unit := main Py.int.

(** ** The script under the interpreter's limit on integer conversions *)

(** An exception that nothing catches: the interpreter writes a traceback
    to standard error and the process ends with exit status 1. *)
Definition raise_uncaught {A} : Script A := sys_exit 1.

(** ["{}".format(x)] and ["{:02d}".format(x)] as the interpreter performs
    them: [ValueError] when [x] has more than [max_str_digits] digits. *)
Definition format (x : Z) : Script string :=
  if fits x then ret (str x) else raise_uncaught.

Definition format_02 (x : Z) : Script string :=
  if fits x then ret (format_02d x) else raise_uncaught.

(** [[f(x) for x in l]]. *)
Fixpoint comprehension {A B} (l : list A) (f : A -> Script B) : Script (list B) :=
  match l with
  | [] => ret []
  | x :: l' => bind (f x) (fun y => bind (comprehension l' f) (fun ys => ret (y :: ys)))
  end.

Section GeneratorChecked.

Local Open Scope script_scope.

Variable imt_size : Z.

(** Lines 86-88. *)
Definition setup_class_checked (i : Z) : Script unit :=
  ci <- format i ;;
  print ("        C" +:+ ci +:+ " c" +:+ ci +:+ " = new C" +:+ ci +:+ "();") ;;
  for_ (range (i + 1)) (fun j =>
    h <- format (imt_size * j) ;;
    ci <- format i ;;
    print ("        callF" +:+ h +:+ "(c" +:+ ci +:+ ");")).

(** Lines 83-89. *)
Definition emit_setup_checked : Script unit :=
  print "    @Before" ;;
  print "    public void setup() {" ;;
  for_ (range max_conflict_depth) setup_class_checked ;;
  print "    }".

(** Lines 93-103. *)
Definition benchmark_method_checked (i : Z) : Script unit :=
  print "    @Test" ;;
  d <- format_02 (i + 1) ;;
  print ("    public void timeConflictDepth" +:+ d +:+ "() {") ;;
  ci <- format i ;;
  print ("        C" +:+ ci +:+ " c" +:+ ci +:+ " = new C" +:+ ci +:+ "();") ;;
  print "        BenchmarkState state = mPerfStatusReporter.getBenchmarkState();" ;;
  print "        while (state.keepRunning()) {" ;;
  for_ (range max_conflict_depth) (fun j =>
    h <- format (imt_size * (j `mod` (i + 1))) ;;
    ci <- format i ;;
    print ("            callF" +:+ h +:+ "(c" +:+ ci +:+ ");")) ;;
  print "        }" ;;
  print "    }".

(** Lines 92-103. *)
Definition emit_benchmarks_checked : Script unit :=
  for_ (range max_conflict_depth) benchmark_method_checked.

(** Line 107. *)
Definition dispatch_helper_checked (i : Z) : Script unit :=
  h <- format (imt_size * i) ;;
  ii <- format i ;;
  print ("    public void callF" +:+ h +:+ "(I" +:+ ii
         +:+ " i) { i.f" +:+ h +:+ "(); }").

(** Lines 106-107. *)
Definition emit_helpers_checked : Script unit :=
  for_ (range max_conflict_depth) dispatch_helper_checked.

(** Lines 111-112. *)
Definition class_decl_checked (i : Z) : Script unit :=
  names <- comprehension (range (i + 1))
             (fun j => ij <- format j ;; ret ("I" +:+ ij)) ;;
  ci <- format i ;;
  print ("    static class C" +:+ ci +:+ " implements "
         +:+ join ", " names +:+ " {}").

(** Lines 110-112. *)
Definition emit_classes_checked : Script unit :=
  for_ (range max_conflict_depth) class_decl_checked.

(** Lines 116-119. *)
Definition interface_decl_checked (i : Z) : Script unit :=
  ii <- format i ;;
  print ("    interface I" +:+ ii +:+ " {") ;;
  for_ (range imt_size) (fun j =>
    m <- format (i * imt_size + j) ;;
    print ("        default void f" +:+ m +:+ "() {}")) ;;
  print "    }".

(** Lines 115-119. *)
Definition emit_interfaces_checked : Script unit :=
  for_ (range max_conflict_depth) interface_decl_checked.

(** Lines 59-121. *)
Definition generate_checked : Script unit :=
  emit_header ;;
  emit_class_open ;;
  emit_setup_checked ;;
  emit_benchmarks_checked ;;
  emit_helpers_checked ;;
  emit_classes_checked ;;
  emit_interfaces_checked ;;
  print "}".

End GeneratorChecked.

(** Lines 20-25, then the rest of the module, for a conversion [int]. *)
Definition main_checked (int : string -> option Z) (argv : list string)
  : Script unit :=
  match argv !! 1%nat ≫= int with
  | Some imt_size => generate_checked imt_size
  | None => bind (print usage) (fun _ => sys_exit 1)
  end.

Definition program_checked : list string -> Script unit := main_checked Py.int.

(** [dies m]: the script [m] stops in an uncaught exception.
    [runs_or_dies m]: it runs to its end or stops in one. *)
Definition dies {A} (m : Script A) : Prop := m.2 = Exited 1.

Definition runs_or_dies {A} (m : Script A) : Prop :=
  (exists a, m.2 = Done a) \/ dies m.

(** The argument made of 4300 nines: the largest text [int] accepts. *)
Definition nines : string := String.concat "" (replicate 4300 "9").

(** ** The shape of the generated Java text

    The naming scheme and the layout of each kind of declaration, written
    out once so that the statements below can speak of names, parameter
    types and call lists instead of raw lines. *)

Definition interface_name (i : Z) : string := "I" +:+ str i.
Definition class_name (i : Z) : string := "C" +:+ str i.
Definition instance_name (i : Z) : string := "c" +:+ str i.
Definition method_name (k : Z) : string := "f" +:+ str k.
Definition helper_name (imt_size i : Z) : string := "callF" +:+ str (imt_size * i).
Definition benchmark_name (depth : Z) : string :=
  "timeConflictDepth" +:+ format_02d depth.

(** [indent cls var = new cls();] *)
Definition new_instance (indent cls var : string) : string :=
  indent +:+ cls +:+ " " +:+ var +:+ " = new " +:+ cls +:+ "();".

(** [indent helper(var);] *)
Definition call_stmt (indent var helper : string) : string :=
  indent +:+ helper +:+ "(" +:+ var +:+ ");".

(** An interface declaration with its default methods. *)
Definition method_decl (m : string) : string :=
  "        default void " +:+ m +:+ "() {}".

Definition interface_block (name : string) (methods : list string) : list string :=
  ["    interface " +:+ name +:+ " {"] ++ (method_decl <$> methods) ++ ["    }"].

(** A class declaration with an empty body. *)
Definition class_line (name : string) (interfaces : list string) : string :=
  "    static class " +:+ name +:+ " implements " +:+ join ", " interfaces +:+ " {}".

(** A dispatch helper: one parameter of type [type], one call of [meth]. *)
Definition helper_decl (name type meth : string) : string :=
  "    public void " +:+ name +:+ "(" +:+ type +:+ " i) { i." +:+ meth +:+ "(); }".

(** The warm-up of one class: an instance, then one call per helper. *)
Definition warmup_block (cls var : string) (helpers : list string) : list string :=
  new_instance "        " cls var :: (call_stmt "        " var <$> helpers).

(** A timed method: an instance, the state handle, and the timed loop
    whose body is one call per helper. *)
Definition benchmark_block (name cls var : string) (helpers : list string)
  : list string :=
  ["    @Test";
   "    public void " +:+ name +:+ "() {";
   new_instance "        " cls var;
   "        BenchmarkState state = mPerfStatusReporter.getBenchmarkState();";
   "        while (state.keepRunning()) {"]
  ++ (call_stmt "            " var <$> helpers)
  ++ ["        }"; "    }"].

(** The method indices declared by interface [i], and by all interfaces. *)
Definition interface_methods (imt_size i : Z) : list Z :=
  (fun j => i * imt_size + j) <$> range imt_size.

Definition all_method_indices (imt_size : Z) : list Z :=
  concat (interface_methods imt_size <$> range max_conflict_depth).

(** The helpers called by the warm-up of class [i] and by the timed loop of
    conflict depth [i + 1]. *)
Definition warmup_helpers (imt_size i : Z) : list string :=
  helper_name imt_size <$> range (i + 1).

Definition benchmark_helpers (imt_size i : Z) : list string :=
  (fun j => helper_name imt_size (j `mod` (i + 1))) <$> range max_conflict_depth.

(** The interfaces class [i] implements. *)
Definition class_interfaces (i : Z) : list string :=
  interface_name <$> range (i + 1).

(** The generated file, line by line, for given helper lists, helper
    declarations and method lists: the fixed lines around them are those
    of the script. *)
Definition file_of (warmup benchmark : Z -> list string) (helper : Z -> string)
    (methods : Z -> list string) : list string :=
  [license; "package android.libcore;"; imports; description]
  ++ ["@RunWith(AndroidJUnit4.class)";
      "@LargeTest";
      "public class ImtConflictPerfTest {";
      "    @Rule";
      "    public PerfStatusReporter mPerfStatusReporter = new PerfStatusReporter();";
      ""]
  ++ (["    @Before"; "    public void setup() {"]
      ++ concat ((fun i => warmup_block (class_name i) (instance_name i) (warmup i))
                 <$> range max_conflict_depth)
      ++ ["    }"])
  ++ concat ((fun i => benchmark_block (benchmark_name (i + 1)) (class_name i)
                         (instance_name i) (benchmark i))
             <$> range max_conflict_depth)
  ++ (helper <$> range max_conflict_depth)
  ++ ((fun i => class_line (class_name i) (class_interfaces i))
      <$> range max_conflict_depth)
  ++ concat ((fun i => interface_block (interface_name i) (methods i))
             <$> range max_conflict_depth)
  ++ ["}"].

(** The file for a table size: warm-up call [j] of class [i] goes through
    [callF{imt_size*j}], timed call [j] through
    [callF{imt_size*(j mod (i+1))}], the helper of interface [i] calls
    [f{imt_size*i}], and interface [i] declares [f{i*imt_size+j}] for [j]
    in [0..imt_size]. *)
Definition file_layout (imt_size : Z) : list string :=
  file_of (warmup_helpers imt_size) (benchmark_helpers imt_size)
    (fun i => helper_decl (helper_name imt_size i) (interface_name i)
                (method_name (imt_size * i)))
    (fun i => method_name <$> interface_methods imt_size i).

(** [block] is a run of consecutive [print] calls within [all]. *)
Definition part_of (block all : list string) : Prop :=
  exists pre post, all = pre ++ block ++ post.

(** [s] starts with [p]. *)
Fixpoint starts_with (p s : string) : bool :=
  match p, s with
  | EmptyString, _ => true
  | String a p', String b s' => Ascii.eqb a b && starts_with p' s'
  | String _ _, EmptyString => false
  end.

(** [needle] occurs in [s]. *)
Fixpoint contains (needle s : string) : bool :=
  starts_with needle s ||
  match s with
  | EmptyString => false
  | String _ s' => contains needle s'
  end.

(** *** Reading the generated file back

    The declarations of the generated file are recognised by the way their
    first line starts; every other line has no kind. *)

Inductive kind : Type :=
  | KSetup      (* the setup method *)
  | KTest       (* a timed benchmark method *)
  | KHelper     (* a dispatch helper *)
  | KClass      (* a class declaration *)
  | KInterface  (* the opening of an interface declaration *)
  | KMethod.    (* a default method of the enclosing interface *)

Definition marker (line : string) : option kind :=
  if starts_with "    @Before" line then Some KSetup
  else if starts_with "    @Test" line then Some KTest
  else if starts_with "    public void callF" line then Some KHelper
  else if starts_with "    static class " line then Some KClass
  else if starts_with "    interface " line then Some KInterface
  else if starts_with "        default void " line then Some KMethod
  else None.

#[global] Instance kind_eq_dec : EqDecision kind.
Proof. solve_decision. Defined.

(** The declarations of a file, in the order they appear. *)
Definition kinds (out : list string) : list kind := omap marker out.

(** *** Characters, nesting and table slots

    Notions used to state how the generated text is formed. *)

(** Every character of [s] satisfies [P]. *)
Fixpoint all_chars (P : ascii -> bool) (s : string) : bool :=
  match s with
  | EmptyString => true
  | String c s' => P c && all_chars P s'
  end.

(** A decimal digit or the minus sign: the characters of a printed integer. *)
Definition numeric (c : ascii) : bool :=
  let n := nat_of_ascii c in
  ((48 <=? n) && (n <=? 57) || (n =? 45))%nat.

(** Scan [s] from nesting depth [d]: [opening] goes one level down,
    [closing] one level up, and closing at depth 0 is an error. *)
Fixpoint nest (opening closing : ascii) (d : nat) (s : string) : option nat :=
  match s with
  | EmptyString => Some d
  | String c s' =>
      if Ascii.eqb c opening then nest opening closing (S d) s'
      else if Ascii.eqb c closing then
        match d with
        | O => None
        | S d' => nest opening closing d' s'
        end
      else nest opening closing d s'
  end.

(** The interface whose helper serves call [j] of the timed loop of
    conflict depth [i + 1] (line 101). *)
Definition benchmark_targets (i : Z) : list Z :=
  (fun j => j `mod` (i + 1)) <$> range max_conflict_depth.

(** The slot of method index [k] as the documentation comment describes
    it: "we hash interface methods by taking their method index modulo
    64" (lines 50-54). *)
Definition imt_slot (k : Z) : Z := k `mod` 64.

(** ** Laws of the script monad *)

(** [runs m out]: the script [m] runs to its end and prints [out]. *)
Definition runs (m : Script unit) (out : list string) : Prop :=
  m = (out, Done tt).

Lemma runs_print s : runs (print s) [s].
Proof. reflexivity. Qed.

Lemma runs_bind m k out out' :
  runs m out -> runs k out' -> runs (bind m (fun _ => k)) (out ++ out').
Proof. unfold runs. intros -> ->. reflexivity. Qed.

Lemma runs_for {A} (l : list A) body (g : A -> list string) :
  (forall x, x ∈ l -> runs (body x) (g x)) ->
  runs (for_ l body) (concat (g <$> l)).
Proof.
  induction l as [|x l IH]; intros Hbody; simpl.
  - reflexivity.
  - apply runs_bind.
    + apply Hbody. left.
    + apply IH. intros y Hy. apply Hbody. by right.
Qed.

Lemma runs_for_print {A} (l : list A) (f : A -> string) :
  runs (for_ l (fun x => print (f x))) (f <$> l).
Proof.
  induction l as [|x l IH]; simpl.
  - reflexivity.
  - apply (runs_bind _ _ [f x] _ (runs_print _) IH).
Qed.

Lemma runs_printed m out : runs m out -> printed m = out.
Proof. by intros ->. Qed.

Lemma runs_exit_status m out : runs m out -> exit_status m = 0.
Proof. by intros ->. Qed.

(** ** Lists, ranges and strings *)

Lemma part_of_refl l : part_of l l.
Proof. exists [], []. by rewrite app_nil_r. Qed.

Lemma part_of_app l pre mid post :
  part_of l mid -> part_of l (pre ++ mid ++ post).
Proof.
  intros (a & b & ->). exists (pre ++ a), (b ++ post).
  by rewrite <- !app_assoc.
Qed.

Lemma part_of_concat {A} (f : A -> list string) (l : list A) x :
  x ∈ l -> part_of (f x) (concat (f <$> l)).
Proof.
  intros (l1 & l2 & ->)%list_elem_of_split.
  exists (concat (f <$> l1)), (concat (f <$> l2)).
  by rewrite fmap_app, concat_app.
Qed.

Lemma elem_of_range n k : k ∈ range n <-> 0 <= k < n.
Proof. unfold range. rewrite elem_of_seqZ. lia. Qed.

Lemma length_range n : length (range n) = Z.to_nat n.
Proof. apply length_seqZ. Qed.

Lemma lookup_range n j : 0 <= j < n -> range n !! Z.to_nat j = Some j.
Proof.
  intros Hj. unfold range. rewrite lookup_seqZ_lt by lia. f_equal. lia.
Qed.

Lemma range_max_conflict_depth :
  range max_conflict_depth =
  [0; 1; 2; 3; 4; 5; 6; 7; 8; 9; 10; 11; 12; 13; 14; 15; 16; 17; 18; 19].
Proof. reflexivity. Qed.

Global Instance str_inj : Inj (=) (=) str.
Proof. unfold str. apply _. Qed.

Global Instance interface_name_inj : Inj (=) (=) interface_name.
Proof. intros x y H. unfold interface_name in H. by simplify_eq. Qed.

Global Instance method_name_inj : Inj (=) (=) method_name.
Proof. intros x y H. unfold method_name in H. by simplify_eq. Qed.

Lemma helper_name_inj imt_size i j :
  imt_size <> 0 -> helper_name imt_size i = helper_name imt_size j -> i = j.
Proof.
  unfold helper_name. intros Hn H. simplify_eq. nia.
Qed.

(** ** What each part of the script prints *)

Section Blocks.

Variable imt_size : Z.

Lemma setup_class_runs i :
  runs (setup_class imt_size i)
       (warmup_block (class_name i) (instance_name i) (warmup_helpers imt_size i)).
Proof.
  unfold setup_class, warmup_block, warmup_helpers.
  rewrite <- list_fmap_compose.
  apply (runs_bind _ _ [_] _ (runs_print _)), runs_for_print.
Qed.

Lemma emit_setup_runs :
  runs (emit_setup imt_size)
       (["    @Before"; "    public void setup() {"]
        ++ concat ((fun i => warmup_block (class_name i) (instance_name i)
                               (warmup_helpers imt_size i))
                   <$> range max_conflict_depth)
        ++ ["    }"]).
Proof.
  unfold emit_setup.
  apply (runs_bind _ _ [_] _ (runs_print _)).
  apply (runs_bind _ _ [_] _ (runs_print _)).
  apply runs_bind; [|apply runs_print].
  apply runs_for. intros i _. apply setup_class_runs.
Qed.

Lemma benchmark_method_runs i :
  runs (benchmark_method imt_size i)
       (benchmark_block (benchmark_name (i + 1)) (class_name i) (instance_name i)
          (benchmark_helpers imt_size i)).
Proof.
  unfold benchmark_method, benchmark_block, benchmark_helpers.
  rewrite <- list_fmap_compose.
  do 5 apply (runs_bind _ _ [_] _ (runs_print _)).
  apply runs_bind; [apply runs_for_print|].
  apply (runs_bind _ _ [_] _ (runs_print _)), runs_print.
Qed.

Lemma emit_benchmarks_runs :
  runs (emit_benchmarks imt_size)
       (concat ((fun i => benchmark_block (benchmark_name (i + 1)) (class_name i)
                            (instance_name i) (benchmark_helpers imt_size i))
                <$> range max_conflict_depth)).
Proof. apply runs_for. intros i _. apply benchmark_method_runs. Qed.

Lemma dispatch_helper_runs i :
  runs (dispatch_helper imt_size i)
       [helper_decl (helper_name imt_size i) (interface_name i)
          (method_name (imt_size * i))].
Proof. apply runs_print. Qed.

Lemma emit_helpers_runs :
  runs (emit_helpers imt_size)
       ((fun i => helper_decl (helper_name imt_size i) (interface_name i)
                    (method_name (imt_size * i)))
        <$> range max_conflict_depth).
Proof. apply runs_for_print. Qed.

Lemma class_decl_runs i :
  runs (class_decl i) [class_line (class_name i) (class_interfaces i)].
Proof. apply runs_print. Qed.

Lemma emit_classes_runs :
  runs emit_classes
       ((fun i => class_line (class_name i) (class_interfaces i))
        <$> range max_conflict_depth).
Proof. apply runs_for_print. Qed.

Lemma interface_decl_runs i :
  runs (interface_decl imt_size i)
       (interface_block (interface_name i)
          (method_name <$> interface_methods imt_size i)).
Proof.
  unfold interface_decl, interface_block, interface_methods.
  rewrite <- !list_fmap_compose.
  apply (runs_bind _ _ [_] _ (runs_print _)).
  apply runs_bind; [apply runs_for_print | apply runs_print].
Qed.

Lemma emit_interfaces_runs :
  runs (emit_interfaces imt_size)
       (concat ((fun i => interface_block (interface_name i)
                            (method_name <$> interface_methods imt_size i))
                <$> range max_conflict_depth)).
Proof. apply runs_for. intros i _. apply interface_decl_runs. Qed.

Lemma emit_header_runs :
  runs emit_header [license; "package android.libcore;"; imports; description].
Proof. reflexivity. Qed.

Lemma emit_class_open_runs :
  runs emit_class_open
       ["@RunWith(AndroidJUnit4.class)";
        "@LargeTest";
        "public class ImtConflictPerfTest {";
        "    @Rule";
        "    public PerfStatusReporter mPerfStatusReporter = new PerfStatusReporter();";
        ""].
Proof. reflexivity. Qed.

Lemma generate_runs :
  runs (generate imt_size)
       (printed emit_header
        ++ printed emit_class_open
        ++ printed (emit_setup imt_size)
        ++ printed (emit_benchmarks imt_size)
        ++ printed (emit_helpers imt_size)
        ++ printed emit_classes
        ++ printed (emit_interfaces imt_size)
        ++ ["}"]).
Proof.
  unfold generate.
  rewrite (runs_printed _ _ emit_setup_runs),
    (runs_printed _ _ emit_benchmarks_runs),
    (runs_printed _ _ emit_helpers_runs),
    (runs_printed _ _ emit_classes_runs),
    (runs_printed _ _ emit_interfaces_runs).
  repeat first
    [ apply runs_print
    | apply runs_bind;
      [ first [ apply emit_header_runs | apply emit_class_open_runs
              | apply emit_setup_runs | apply emit_benchmarks_runs
              | apply emit_helpers_runs | apply emit_classes_runs
              | apply emit_interfaces_runs ] | ] ].
Qed.

End Blocks.

(** ** Interfaces and their method indices *)

Lemma interface_methods_seqZ imt_size i :
  interface_methods imt_size i = seqZ (i * imt_size) imt_size.
Proof.
  unfold interface_methods, range.
  etransitivity; [apply (fmap_add_seqZ (i * imt_size) 0 imt_size)|].
  by rewrite Z.add_0_r.
Qed.

Lemma concat_interface_methods imt_size (k : nat) :
  0 <= imt_size ->
  concat (interface_methods imt_size <$> seqZ 0 (Z.of_nat k))
  = seqZ 0 (imt_size * Z.of_nat k).
Proof.
  intros Hn. induction k as [|k IH].
  - by rewrite Z.mul_0_r.
  - rewrite seqZ_S, fmap_app, concat_app, IH. simpl.
    rewrite app_nil_r, interface_methods_seqZ.
    replace (imt_size * Z.of_nat (S k))
      with (imt_size * Z.of_nat k + imt_size) by lia.
    rewrite seqZ_app by lia. do 2 f_equal. lia.
Qed.

Lemma all_method_indices_seqZ imt_size :
  0 <= imt_size ->
  all_method_indices imt_size = seqZ 0 (imt_size * max_conflict_depth).
Proof. intros Hn. apply (concat_interface_methods imt_size 20 Hn). Qed.

Lemma generate_part imt_size block :
  part_of block (printed (emit_setup imt_size))
  \/ part_of block (printed (emit_benchmarks imt_size))
  \/ part_of block (printed (emit_helpers imt_size))
  \/ part_of block (printed emit_classes)
  \/ part_of block (printed (emit_interfaces imt_size)) ->
  part_of block (printed (generate imt_size)).
Proof.
  rewrite (runs_printed _ _ (generate_runs imt_size)).
  intros [H|[H|[H|[H|H]]]].
  - rewrite (app_assoc (printed emit_header)). by apply part_of_app.
  - rewrite 2!(app_assoc _ _ (printed (emit_benchmarks _) ++ _)).
    by apply part_of_app.
  - rewrite 3!(app_assoc _ _ (printed (emit_helpers _) ++ _)).
    by apply part_of_app.
  - rewrite 4!(app_assoc _ _ (printed emit_classes ++ _)).
    by apply part_of_app.
  - rewrite 5!(app_assoc _ _ (printed (emit_interfaces _) ++ _)).
    by apply part_of_app.
Qed.

(** ** The declarations of the generated file, read back from its lines *)

Lemma kinds_app l1 l2 : kinds (l1 ++ l2) = kinds l1 ++ kinds l2.
Proof. apply omap_app. Qed.

Lemma kinds_concat {A} (g : A -> list string) (h : A -> list kind) l :
  (forall x, kinds (g x) = h x) ->
  kinds (concat (g <$> l)) = concat (h <$> l).
Proof.
  intros Hg. induction l as [|x l IH]; [done|].
  cbn [fmap list_fmap concat]. by rewrite kinds_app, Hg, IH.
Qed.

Lemma kinds_fmap_none {A} (f : A -> string) l :
  (forall x, marker (f x) = None) -> kinds (f <$> l) = [].
Proof.
  intros Hf. induction l as [|x l IH]; [done|].
  unfold kinds in *. cbn [fmap list_fmap omap list_omap].
  by rewrite Hf.
Qed.

Lemma kinds_fmap_some {A} (f : A -> string) k l :
  (forall x, marker (f x) = Some k) -> kinds (f <$> l) = replicate (length l) k.
Proof.
  intros Hf. induction l as [|x l IH]; [done|].
  unfold kinds in *. cbn [fmap list_fmap omap list_omap length replicate].
  by rewrite Hf, <- IH.
Qed.

Lemma kinds_warmup_block imt_size i :
  kinds (warmup_block (class_name i) (instance_name i) (warmup_helpers imt_size i))
  = [].
Proof.
  unfold warmup_block, warmup_helpers. rewrite <- list_fmap_compose.
  change (kinds (?a :: ?l)) with (kinds l).
  by apply kinds_fmap_none.
Qed.

Lemma kinds_benchmark_block imt_size i :
  kinds (benchmark_block (benchmark_name (i + 1)) (class_name i)
           (instance_name i) (benchmark_helpers imt_size i))
  = [KTest].
Proof.
  unfold benchmark_block, benchmark_helpers.
  rewrite <- list_fmap_compose, !kinds_app, kinds_fmap_none; done.
Qed.

Lemma kinds_interface_block imt_size i :
  kinds (interface_block (interface_name i)
           (method_name <$> interface_methods imt_size i))
  = KInterface :: replicate (Z.to_nat imt_size) KMethod.
Proof.
  unfold interface_block, interface_methods.
  rewrite <- !list_fmap_compose, !kinds_app.
  rewrite (kinds_fmap_some _ KMethod) by done.
  by rewrite length_range, app_nil_r.
Qed.

Lemma concat_const {A B} (b : list B) (l : list A) :
  concat ((fun _ => b) <$> l) = concat (replicate (length l) b).
Proof.
  induction l as [|x l IH]; [done|].
  cbn [fmap list_fmap concat length replicate]. by f_equal.
Qed.

(** One setup method, then 20 benchmark methods, 20 helpers, 20 classes,
    and 20 interfaces, each followed by its methods. *)
Lemma generate_kinds imt_size :
  kinds (printed (generate imt_size))
  = [KSetup]
    ++ replicate 20 KTest ++ replicate 20 KHelper ++ replicate 20 KClass
    ++ concat (replicate 20 (KInterface :: replicate (Z.to_nat imt_size) KMethod)).
Proof.
  rewrite (runs_printed _ _ (generate_runs imt_size)),
    (runs_printed _ _ emit_header_runs),
    (runs_printed _ _ emit_class_open_runs),
    (runs_printed _ _ (emit_setup_runs imt_size)),
    (runs_printed _ _ (emit_benchmarks_runs imt_size)),
    (runs_printed _ _ (emit_helpers_runs imt_size)),
    (runs_printed _ _ emit_classes_runs),
    (runs_printed _ _ (emit_interfaces_runs imt_size)).
  rewrite !kinds_app.
  rewrite (kinds_concat _ (fun _ => []) _ (kinds_warmup_block imt_size)).
  rewrite (kinds_concat _ (fun _ => [KTest]) _ (kinds_benchmark_block imt_size)).
  rewrite (kinds_concat _ _ _ (kinds_interface_block imt_size)).
  rewrite (kinds_fmap_some _ KHelper) by (intros; reflexivity).
  rewrite (kinds_fmap_some _ KClass) by (intros; reflexivity).
  rewrite !concat_const, length_range.
  change (kinds ["}"]) with (@nil kind). rewrite !app_nil_r.
  reflexivity.
Qed.

(** C1. For a positive [imt_size] the interface loop prints exactly
    [max_conflict_depth] = 20 interface blocks, as part of the generated
    file; block [i] is named [I{i}] and holds exactly [imt_size] default
    methods, the j-th named [f{i*imt_size + j}]; listed block after block
    the method indices are 0, 1, ..., [imt_size * max_conflict_depth - 1],
    without duplicates, and so are the method names. Read back from its
    lines, the whole file declares 20 interfaces, each followed by exactly
    [imt_size] default methods, and no interface or method elsewhere. *)
Theorem C1_interface_blocks (imt_size : Z) (Hpos : 0 < imt_size) :
  printed (emit_interfaces imt_size)
  = concat ((fun i => interface_block (interface_name i)
                        (method_name <$> interface_methods imt_size i))
            <$> range max_conflict_depth)
  /\ part_of (printed (emit_interfaces imt_size)) (printed (generate imt_size))
  /\ length (range max_conflict_depth) = 20%nat
  /\ (forall i, 0 <= i < max_conflict_depth ->
        Z.of_nat (length (interface_methods imt_size i)) = imt_size
        /\ forall j, 0 <= j < imt_size ->
             interface_methods imt_size i !! Z.to_nat j = Some (i * imt_size + j))
  /\ all_method_indices imt_size = seqZ 0 (imt_size * max_conflict_depth)
  /\ NoDup (all_method_indices imt_size)
  /\ NoDup (method_name <$> all_method_indices imt_size)
  /\ kinds (printed (generate imt_size))
     = [KSetup]
       ++ replicate 20 KTest ++ replicate 20 KHelper ++ replicate 20 KClass
       ++ concat (replicate 20
                    (KInterface :: replicate (Z.to_nat imt_size) KMethod)).
Proof.
  split; [apply runs_printed, emit_interfaces_runs|].
  split; [apply generate_part; do 4 right; apply part_of_refl|].
  split; [reflexivity|].
  split.
  { intros i _. split.
    - unfold interface_methods. rewrite length_fmap, length_range. lia.
    - intros j Hj. unfold interface_methods.
      by rewrite list_lookup_fmap, lookup_range. }
  rewrite all_method_indices_seqZ by lia.
  split; [reflexivity|].
  split; [apply NoDup_seqZ|].
  split; [apply (NoDup_fmap_2 _), NoDup_seqZ|].
  apply generate_kinds.
Qed.

Lemma C1_interface_blocks_witness :
  0 < 3 /\ all_method_indices 3 = seqZ 0 (3 * max_conflict_depth)
  /\ NoDup (all_method_indices 3).
Proof.
  split; [lia|].
  destruct (C1_interface_blocks 3 ltac:(lia))
    as (_ & _ & _ & _ & H & Hnd & _).
  exact (conj H Hnd).
Defined.

(** ** Benchmark methods, classes, warm-up and dispatch helpers *)

(** Case analysis on an index of a loop over [range max_conflict_depth]. *)
Ltac depth_cases i Hi :=
  let H := fresh "Hin" in
  assert (H : i ∈ range max_conflict_depth) by (apply elem_of_range; exact Hi);
  rewrite range_max_conflict_depth in H;
  repeat (apply elem_of_cons in H as [->|H]);
  [..|by apply elem_of_nil in H].

Lemma benchmark_name_two_digits i :
  0 <= i < max_conflict_depth ->
  benchmark_name (i + 1)
  = "timeConflictDepth" +:+ (if i + 1 <? 10 then "0" +:+ str (i + 1) else str (i + 1)).
Proof. intros Hi. depth_cases i Hi; reflexivity. Qed.

Lemma in_max_conflict_depth i :
  0 <= i < max_conflict_depth -> i ∈ range max_conflict_depth.
Proof. apply elem_of_range. Qed.

(** C2. For a positive [imt_size] and [i] in 0..19, the benchmark method of
    conflict depth [i + 1] is part of the generated file; it is named
    [timeConflictDepth] followed by [i + 1] on two digits, constructs one
    instance [c{i}] of class [C{i}], and its timed loop body is exactly
    [max_conflict_depth] = 20 calls on that instance, call [j] being
    [callF{imt_size * (j mod (i + 1))}]. *)
Theorem C2_benchmark_calls (imt_size i : Z)
    (Hpos : 0 < imt_size) (Hi : 0 <= i < max_conflict_depth) :
  printed (benchmark_method imt_size i)
  = benchmark_block (benchmark_name (i + 1)) (class_name i) (instance_name i)
      (benchmark_helpers imt_size i)
  /\ part_of (printed (benchmark_method imt_size i)) (printed (generate imt_size))
  /\ benchmark_name (i + 1)
     = "timeConflictDepth"
       +:+ (if i + 1 <? 10 then "0" +:+ str (i + 1) else str (i + 1))
  /\ length (benchmark_helpers imt_size i) = 20%nat
  /\ forall j, 0 <= j < max_conflict_depth ->
       benchmark_helpers imt_size i !! Z.to_nat j
       = Some ("callF" +:+ str (imt_size * (j `mod` (i + 1)))).
Proof.
  pose proof (runs_printed _ _ (benchmark_method_runs imt_size i)) as Hrun.
  split; [exact Hrun|].
  split.
  { apply generate_part. right; left.
    rewrite Hrun, (runs_printed _ _ (emit_benchmarks_runs imt_size)).
    apply (part_of_concat
             (fun i => benchmark_block (benchmark_name (i + 1)) (class_name i)
                         (instance_name i) (benchmark_helpers imt_size i))).
    by apply in_max_conflict_depth. }
  split; [by apply benchmark_name_two_digits|].
  split; [reflexivity|].
  intros j Hj. unfold benchmark_helpers.
  by rewrite list_lookup_fmap, lookup_range.
Qed.

Lemma C2_benchmark_calls_witness :
  0 < 1 /\ 0 <= 5 < max_conflict_depth
  /\ benchmark_name (5 + 1) = "timeConflictDepth06"
  /\ benchmark_helpers 1 5 !! 7%nat = Some "callF1".
Proof.
  split; [lia|]. split; [done|].
  destruct (C2_benchmark_calls 1 5 ltac:(lia) ltac:(done))
    as (_ & _ & Hname & _ & Hcall).
  split; [exact Hname | exact (Hcall 7 ltac:(done))].
Defined.

(** C3. For a positive [imt_size] and [i] in 0..19, the declaration of
    class [C{i}] is part of the generated file, has an empty body, and
    lists exactly [i + 1] interfaces: [I0], [I1], ..., [I{i}], in that
    order. *)
Theorem C3_class_interfaces (imt_size i : Z)
    (Hpos : 0 < imt_size) (Hi : 0 <= i < max_conflict_depth) :
  printed (class_decl i)
  = ["    static class C" +:+ str i +:+ " implements "
     +:+ join ", " (class_interfaces i) +:+ " {}"]
  /\ part_of (printed (class_decl i)) (printed (generate imt_size))
  /\ Z.of_nat (length (class_interfaces i)) = i + 1
  /\ (forall j, 0 <= j <= i ->
        class_interfaces i !! Z.to_nat j = Some ("I" +:+ str j))
  /\ NoDup (class_interfaces i).
Proof.
  split; [reflexivity|].
  split.
  { apply generate_part. do 3 right; left.
    rewrite (runs_printed _ _ (class_decl_runs i)),
      (runs_printed _ _ emit_classes_runs).
    assert (Hin : i ∈ range max_conflict_depth) by by apply in_max_conflict_depth.
    apply list_elem_of_split in Hin as (l1 & l2 & ->).
    eexists _, _. rewrite fmap_app, fmap_cons. reflexivity. }
  unfold class_interfaces.
  split; [rewrite length_fmap, length_range; lia|].
  split.
  - intros j Hj. by rewrite list_lookup_fmap, lookup_range by lia.
  - apply (NoDup_fmap_2 _), NoDup_seqZ.
Qed.

Lemma C3_class_interfaces_witness :
  0 < 1 /\ 0 <= 5 < max_conflict_depth
  /\ printed (class_decl 5)
     = ["    static class C5 implements I0, I1, I2, I3, I4, I5 {}"].
Proof.
  split; [lia|]. split; [done|].
  destruct (C3_class_interfaces 1 5 ltac:(lia) ltac:(done)) as (H & _).
  exact H.
Defined.

(** C4. For a positive [imt_size] and [i] in 0..19, the warm-up of class
    [C{i}] is part of the generated file; it constructs one instance
    [c{i}] and then makes exactly [i + 1] calls on it, call [j] through
    [callF{imt_size * j}], the helper of interface [I{j}], which the class
    implements; the helpers called are pairwise distinct. *)
Theorem C4_warmup_calls (imt_size i : Z)
    (Hpos : 0 < imt_size) (Hi : 0 <= i < max_conflict_depth) :
  printed (setup_class imt_size i)
  = warmup_block (class_name i) (instance_name i) (warmup_helpers imt_size i)
  /\ part_of (printed (setup_class imt_size i)) (printed (generate imt_size))
  /\ Z.of_nat (length (warmup_helpers imt_size i)) = i + 1
  /\ (forall j, 0 <= j <= i ->
        warmup_helpers imt_size i !! Z.to_nat j
        = Some ("callF" +:+ str (imt_size * j))
        /\ interface_name j ∈ class_interfaces i)
  /\ NoDup (warmup_helpers imt_size i).
Proof.
  pose proof (runs_printed _ _ (setup_class_runs imt_size i)) as Hrun.
  split; [exact Hrun|].
  split.
  { apply generate_part. left.
    rewrite Hrun, (runs_printed _ _ (emit_setup_runs imt_size)).
    apply part_of_app.
    apply (part_of_concat
             (fun i => warmup_block (class_name i) (instance_name i)
                         (warmup_helpers imt_size i))).
    by apply in_max_conflict_depth. }
  unfold warmup_helpers, class_interfaces.
  split; [rewrite length_fmap, length_range; lia|].
  split.
  - intros j Hj. split.
    + by rewrite list_lookup_fmap, lookup_range by lia.
    + apply list_elem_of_fmap_2, elem_of_range. lia.
  - apply NoDup_fmap_2_strong; [|apply NoDup_seqZ].
    intros x y _ _. apply helper_name_inj. lia.
Qed.

Lemma C4_warmup_calls_witness :
  0 < 64 /\ 0 <= 2 < max_conflict_depth
  /\ printed (setup_class 64 2)
     = ["        C2 c2 = new C2();"; "        callF0(c2);";
        "        callF64(c2);"; "        callF128(c2);"].
Proof.
  split; [lia|]. split; [done|].
  destruct (C4_warmup_calls 64 2 ltac:(lia) ltac:(done)) as (H & _).
  exact H.
Defined.

Lemma only_index_named i :
  0 <= i < max_conflict_depth ->
  filter (fun k => interface_name k = interface_name i) (range max_conflict_depth)
  = [i].
Proof. intros Hi. depth_cases i Hi; reflexivity. Qed.

Lemma elem_of_interface_methods imt_size i k :
  k ∈ interface_methods imt_size i <-> i * imt_size <= k < i * imt_size + imt_size.
Proof. rewrite interface_methods_seqZ. apply elem_of_seqZ. Qed.

(** C5. For a positive [imt_size] and [i] in 0..19, the helper loop prints
    20 helpers, one per interface index and as part of the generated file;
    exactly one of them takes a parameter of type [I{i}]: it is named
    [callF{imt_size * i}] and calls [f{imt_size * i}] on its parameter, a
    method that interface [I{i}] declares and no other interface does. *)
Theorem C5_dispatch_helper (imt_size i : Z)
    (Hpos : 0 < imt_size) (Hi : 0 <= i < max_conflict_depth) :
  printed (dispatch_helper imt_size i)
  = [helper_decl ("callF" +:+ str (imt_size * i)) ("I" +:+ str i)
       ("f" +:+ str (imt_size * i))]
  /\ printed (emit_helpers imt_size)
     = (fun k => helper_decl (helper_name imt_size k) (interface_name k)
                   (method_name (imt_size * k)))
       <$> range max_conflict_depth
  /\ part_of (printed (emit_helpers imt_size)) (printed (generate imt_size))
  /\ length (printed (emit_helpers imt_size)) = 20%nat
  /\ filter (fun k => interface_name k = interface_name i)
       (range max_conflict_depth) = [i]
  /\ imt_size * i ∈ interface_methods imt_size i
  /\ forall k, 0 <= k < max_conflict_depth -> k <> i ->
       imt_size * i ∉ interface_methods imt_size k.
Proof.
  pose proof (runs_printed _ _ (emit_helpers_runs imt_size)) as Hrun.
  split; [reflexivity|].
  split; [exact Hrun|].
  split; [apply generate_part; do 2 right; left; apply part_of_refl|].
  split; [by rewrite Hrun, length_fmap|].
  split; [by apply only_index_named|].
  split.
  - apply elem_of_interface_methods. lia.
  - intros k Hk Hne. rewrite elem_of_interface_methods. nia.
Qed.

Lemma C5_dispatch_helper_witness :
  0 < 64 /\ 0 <= 3 < max_conflict_depth
  /\ printed (dispatch_helper 64 3)
     = ["    public void callF192(I3 i) { i.f192(); }"].
Proof.
  split; [lia|]. split; [done|].
  destruct (C5_dispatch_helper 64 3 ltac:(lia) ltac:(done)) as (H & _).
  exact H.
Defined.

(** ** Strings and the text on standard output *)

Lemma append_cons c (a b : string) : String c a +:+ b = String c (a +:+ b).
Proof. reflexivity. Qed.

Lemma append_assoc (a b c : string) : (a +:+ b) +:+ c = a +:+ b +:+ c.
Proof. induction a as [|x a IH]; [done|]. by rewrite !append_cons, IH. Qed.

Lemma stdout_text_app l1 l2 :
  stdout_text (l1 ++ l2) = stdout_text l1 +:+ stdout_text l2.
Proof.
  induction l1 as [|s l1 IH]; [done|].
  cbn [app stdout_text]. by rewrite IH, !append_assoc.
Qed.

Lemma starts_with_app x a b :
  starts_with x a = true -> starts_with x (a +:+ b) = true.
Proof.
  revert a. induction x as [|c x IH]; intros [|d a]; try done.
  rewrite append_cons. cbn [starts_with].
  intros [-> H]%andb_true_iff. by rewrite (IH _ H).
Qed.

Lemma contains_app_l x a b :
  contains x a = true -> contains x (a +:+ b) = true.
Proof.
  induction a as [|c a IH].
  - cbn [contains]. rewrite orb_false_r. intros H.
    apply (starts_with_app _ _ b) in H. change ("" +:+ b) with b in *.
    destruct b; cbn [contains]; by rewrite H.
  - rewrite append_cons. cbn [contains].
    intros [H|H]%orb_true_iff; apply orb_true_iff.
    + left. by apply (starts_with_app _ _ b) in H.
    + right. by apply IH.
Qed.

Lemma contains_app_r x a b :
  contains x b = true -> contains x (a +:+ b) = true.
Proof.
  intros H. induction a as [|c a IH]; [done|].
  rewrite append_cons. cbn [contains]. apply orb_true_iff. by right.
Qed.

Lemma elem_of_concat {A} (ls : list (list A)) (x : A) :
  x ∈ concat ls <-> exists l, l ∈ ls /\ x ∈ l.
Proof.
  induction ls as [|l ls IH]; simpl.
  - split; [by intros ?%elem_of_nil|by intros (? & ?%elem_of_nil & _)].
  - rewrite elem_of_app, IH. split.
    + intros [H|(l' & Hl' & Hx)].
      * exists l. split; [left|done].
      * exists l'. split; [by right|done].
    + intros (l' & [->|Hl']%elem_of_cons & Hx); [by left|].
      right. by exists l'.
Qed.

(** No line of the generated file starts like the usage message. *)
Lemma generated_lines imt_size l :
  l ∈ printed (generate imt_size) -> starts_with "U" l = false.
Proof.
  rewrite (runs_printed _ _ (generate_runs imt_size)),
    (runs_printed _ _ emit_header_runs),
    (runs_printed _ _ emit_class_open_runs),
    (runs_printed _ _ (emit_setup_runs imt_size)),
    (runs_printed _ _ (emit_benchmarks_runs imt_size)),
    (runs_printed _ _ (emit_helpers_runs imt_size)),
    (runs_printed _ _ emit_classes_runs),
    (runs_printed _ _ (emit_interfaces_runs imt_size)).
  intros H.
  repeat match goal with
  | H : _ ∈ _ ++ _ |- _ => apply elem_of_app in H as [H|H]
  | H : _ ∈ concat _ |- _ => apply elem_of_concat in H as (? & ? & H)
  | H : _ ∈ _ <$> _ |- _ => apply list_elem_of_fmap in H as (? & -> & H)
  | H : _ ∈ _ :: _ |- _ => apply elem_of_cons in H as [->|H]
  | H : _ ∈ [] |- _ => by apply elem_of_nil in H
  | H : _ ∈ warmup_block _ _ _ |- _ => unfold warmup_block in H
  | H : _ ∈ benchmark_block _ _ _ _ |- _ => unfold benchmark_block in H
  | H : _ ∈ interface_block _ _ |- _ => unfold interface_block in H
  end; reflexivity.
Qed.

Lemma usage_not_generated imt_size : usage ∉ printed (generate imt_size).
Proof. by intros H%generated_lines. Qed.

Lemma license_generated imt_size : license ∈ printed (generate imt_size).
Proof. rewrite (runs_printed _ _ (generate_runs imt_size)). left. Qed.

(** ** The command-line argument *)

Lemma main_generate int argv s imt_size :
  argv !! 1%nat = Some s -> int s = Some imt_size ->
  main int argv = generate imt_size.
Proof. unfold main. intros -> Hint. simpl. by rewrite Hint. Qed.

Lemma main_usage int argv :
  argv !! 1%nat ≫= int = None ->
  main int argv = ([usage], Exited 1).
Proof. unfold main. by intros ->. Qed.

(** C6. When [sys.argv[1]] is missing, or [int] rejects it, the script
    prints the usage line and nothing else, ends with exit status 1, and
    prints no line of the generated file. When [int] accepts the argument
    the script is the generator: it ends with status 0 and does not print
    the usage line. *)
Theorem C6_usage_on_bad_argument (int : string -> option Z) (argv : list string) :
  (argv !! 1%nat = None \/ (exists s, argv !! 1%nat = Some s /\ int s = None) ->
     printed (main int argv) = [usage]
     /\ stdout_text (printed (main int argv)) = usage +:+ nl
     /\ exit_status (main int argv) = 1
     /\ forall imt_size line,
          line ∈ printed (generate imt_size) -> line ∉ printed (main int argv))
  /\ (forall s imt_size,
        argv !! 1%nat = Some s -> int s = Some imt_size ->
        main int argv = generate imt_size
        /\ exit_status (main int argv) = 0
        /\ usage ∉ printed (main int argv)).
Proof.
  split.
  - intros Hbad.
    assert (Hnone : argv !! 1%nat ≫= int = None).
    { destruct Hbad as [->|(s & -> & Hs)]; [done|exact Hs]. }
    rewrite (main_usage _ _ Hnone).
    repeat split.
    intros imt_size line Hgen [->|[]%elem_of_nil]%elem_of_cons.
    by apply usage_not_generated in Hgen.
  - intros s imt_size Hs Hint.
    rewrite (main_generate _ _ _ _ Hs Hint).
    split; [done|].
    split; [apply (runs_exit_status _ _ (generate_runs imt_size))|].
    apply usage_not_generated.
Qed.

Lemma C6_usage_on_bad_argument_witness :
  (printed (program ["ImtConflictPerfTestGen.py"]) = [usage]
   /\ exit_status (program ["ImtConflictPerfTestGen.py"]) = 1)
  /\ (Py.int "abc" = None
      /\ printed (program ["ImtConflictPerfTestGen.py"; "abc"]) = [usage]
      /\ exit_status (program ["ImtConflictPerfTestGen.py"; "abc"]) = 1)
  /\ (Py.int "64" = Some 64
      /\ exit_status (program ["ImtConflictPerfTestGen.py"; "64"]) = 0).
Proof.
  split; [|split].
  - destruct (C6_usage_on_bad_argument Py.int ["ImtConflictPerfTestGen.py"])
      as [Hbad _].
    destruct (Hbad (or_introl eq_refl)) as (H1 & _ & H2 & _).
    exact (conj H1 H2).
  - destruct (C6_usage_on_bad_argument Py.int ["ImtConflictPerfTestGen.py"; "abc"])
      as [Hbad _].
    destruct (Hbad (or_intror (ex_intro _ "abc" (conj eq_refl eq_refl))))
      as (H1 & _ & H2 & _).
    exact (conj eq_refl (conj H1 H2)).
  - destruct (C6_usage_on_bad_argument Py.int ["ImtConflictPerfTestGen.py"; "64"])
      as [_ Hgood].
    destruct (Hgood "64" 64 eq_refl eq_refl) as (_ & H & _).
    exact (conj eq_refl H).
Defined.

(** ** The layout of the generated file *)

(** C9. For a positive [imt_size] the generated file is, in this order:
    the license header, the package line and the import declarations, the
    documentation comment, the opening of the test class with its setup
    method, the 20 timed benchmark methods, the 20 dispatch helpers, the 20
    class declarations, the 20 interface declarations, and the closing
    brace; the text on standard output is the concatenation of these
    sections in the same order. Read back from its lines, the file
    declares one setup method, then 20 benchmark methods, 20 helpers, 20
    classes and 20 interfaces with their methods. *)
Theorem C9_section_order (imt_size : Z) (Hpos : 0 < imt_size) :
  let depths := range max_conflict_depth in
  let class_open :=
    ["@RunWith(AndroidJUnit4.class)";
     "@LargeTest";
     "public class ImtConflictPerfTest {";
     "    @Rule";
     "    public PerfStatusReporter mPerfStatusReporter = new PerfStatusReporter();";
     ""] in
  let setup_method :=
    ["    @Before"; "    public void setup() {"]
    ++ concat ((fun i => warmup_block (class_name i) (instance_name i)
                           (warmup_helpers imt_size i)) <$> depths)
    ++ ["    }"] in
  let benchmarks :=
    concat ((fun i => benchmark_block (benchmark_name (i + 1)) (class_name i)
                        (instance_name i) (benchmark_helpers imt_size i))
            <$> depths) in
  let helpers :=
    (fun i => helper_decl (helper_name imt_size i) (interface_name i)
                (method_name (imt_size * i))) <$> depths in
  let classes :=
    (fun i => class_line (class_name i) (class_interfaces i)) <$> depths in
  let interfaces :=
    concat ((fun i => interface_block (interface_name i)
                        (method_name <$> interface_methods imt_size i))
            <$> depths) in
  printed (generate imt_size)
  = [license] ++ ["package android.libcore;"; imports] ++ [description]
    ++ class_open ++ setup_method
    ++ benchmarks ++ helpers ++ classes ++ interfaces ++ ["}"]
  /\ length depths = 20%nat
  /\ length helpers = 20%nat
  /\ length classes = 20%nat
  /\ kinds (printed (generate imt_size))
     = [KSetup]
       ++ replicate 20 KTest ++ replicate 20 KHelper ++ replicate 20 KClass
       ++ concat (replicate 20
                    (KInterface :: replicate (Z.to_nat imt_size) KMethod))
  /\ stdout_text (printed (generate imt_size))
     = stdout_text [license]
       +:+ stdout_text ["package android.libcore;"; imports]
       +:+ stdout_text [description]
       +:+ stdout_text class_open +:+ stdout_text setup_method
       +:+ stdout_text benchmarks +:+ stdout_text helpers
       +:+ stdout_text classes +:+ stdout_text interfaces
       +:+ stdout_text ["}"]
  /\ exit_status (generate imt_size) = 0.
Proof.
  intros depths class_open setup_method benchmarks helpers classes interfaces.
  assert (Hlayout : printed (generate imt_size)
    = [license] ++ ["package android.libcore;"; imports] ++ [description]
      ++ class_open ++ setup_method
      ++ benchmarks ++ helpers ++ classes ++ interfaces ++ ["}"]).
  { rewrite (runs_printed _ _ (generate_runs imt_size)),
      (runs_printed _ _ emit_header_runs),
      (runs_printed _ _ emit_class_open_runs),
      (runs_printed _ _ (emit_setup_runs imt_size)),
      (runs_printed _ _ (emit_benchmarks_runs imt_size)),
      (runs_printed _ _ (emit_helpers_runs imt_size)),
      (runs_printed _ _ emit_classes_runs),
      (runs_printed _ _ (emit_interfaces_runs imt_size)).
    reflexivity. }
  split; [exact Hlayout|].
  do 3 (split; [reflexivity|]).
  split; [apply generate_kinds|].
  split; [by rewrite Hlayout, !stdout_text_app|].
  apply (runs_exit_status _ _ (generate_runs imt_size)).
Qed.

Lemma C9_section_order_witness :
  0 < 1 /\ exit_status (generate 1) = 0
  /\ exists rest, printed (generate 1)
                  = license :: "package android.libcore;" :: imports
                    :: description :: rest.
Proof.
  split; [lia|].
  destruct (C9_section_order 1 ltac:(lia))
    as (Hlayout & _ & _ & _ & _ & _ & Hexit).
  split; [exact Hexit|].
  eexists. exact Hlayout.
Defined.

(** C10. Whatever [imt_size] is, the documentation comment is printed as
    it stands in the script, and it says that each interface has 64
    methods: the phrase occurs in the comment and in the text on standard
    output, while every interface of the generated file declares
    [imt_size] methods (none when [imt_size] is negative). *)
Theorem C10_doc_comment_fixed_64 (imt_size : Z) :
  description ∈ printed (generate imt_size)
  /\ contains "Each interface has 64 methods" description = true
  /\ contains "Each interface has 64 methods"
       (stdout_text (printed (generate imt_size))) = true
  /\ forall i, length (interface_methods imt_size i) = Z.to_nat imt_size.
Proof.
  pose proof (runs_printed _ _ (generate_runs imt_size)) as Hrun.
  rewrite (runs_printed _ _ emit_header_runs) in Hrun.
  split; [rewrite Hrun; do 3 right; left|].
  split; [vm_compute; reflexivity|].
  split.
  - rewrite Hrun.
    change ([license; "package android.libcore;"; imports; description] ++ ?l)
      with ([license; "package android.libcore;"; imports] ++ description :: l).
    rewrite stdout_text_app. cbn [stdout_text].
    apply contains_app_r, contains_app_l. vm_compute; reflexivity.
  - intros i. unfold interface_methods. by rewrite length_fmap, length_range.
Qed.

(** ** The concrete scenario: [imt_size = 1] *)

Example scenario_interfaces :
  printed (emit_interfaces 1)
  = concat ((fun i => ["    interface I" +:+ str i +:+ " {";
                       "        default void f" +:+ str i +:+ "() {}";
                       "    }"]) <$> range 20).
Proof. vm_compute; reflexivity. Qed.

Example scenario_class_5 :
  printed (class_decl 5)
  = ["    static class C5 implements I0, I1, I2, I3, I4, I5 {}"].
Proof. vm_compute; reflexivity. Qed.

Example scenario_depth_6 :
  printed (benchmark_method 1 5)
  = ["    @Test";
     "    public void timeConflictDepth06() {";
     "        C5 c5 = new C5();";
     "        BenchmarkState state = mPerfStatusReporter.getBenchmarkState();";
     "        while (state.keepRunning()) {";
     "            callF0(c5);"; "            callF1(c5);"; "            callF2(c5);";
     "            callF3(c5);"; "            callF4(c5);"; "            callF5(c5);";
     "            callF0(c5);"; "            callF1(c5);"; "            callF2(c5);";
     "            callF3(c5);"; "            callF4(c5);"; "            callF5(c5);";
     "            callF0(c5);"; "            callF1(c5);"; "            callF2(c5);";
     "            callF3(c5);"; "            callF4(c5);"; "            callF5(c5);";
     "            callF0(c5);"; "            callF1(c5);";
     "        }";
     "    }"].
Proof. vm_compute; reflexivity. Qed.

Example int_examples :
  Py.int "abc" = None /\ Py.int "" = None /\ Py.int "1.5" = None
  /\ Py.int "64" = Some 64 /\ Py.int " 1_000 " = Some 1000
  /\ Py.int "1__0" = None /\ Py.int "-" = None /\ Py.int "007" = Some 7.
Proof. vm_compute. repeat split. Qed.

(** ** Further properties of the script *)

(** *** The characters of printed integers *)

Lemma all_chars_app P a b :
  all_chars P (a +:+ b) = all_chars P a && all_chars P b.
Proof.
  induction a as [|c a IH]; [done|].
  rewrite append_cons. cbn [all_chars]. by rewrite IH, andb_assoc.
Qed.

Lemma all_chars_weaken (P Q : ascii -> bool) s :
  (forall c, P c = true -> Q c = true) ->
  all_chars P s = true -> all_chars Q s = true.
Proof.
  intros HPQ. induction s as [|c s IH]; [done|].
  cbn [all_chars]. intros [Hc Hs]%andb_true_iff.
  by rewrite (HPQ _ Hc), (IH Hs).
Qed.

Lemma numeric_pretty_N_char x : numeric (pretty_N_char x) = true.
Proof. unfold pretty_N_char. by repeat case_match. Qed.

Lemma numeric_pretty_N_go x s :
  all_chars numeric s = true -> all_chars numeric (pretty_N_go x s) = true.
Proof.
  revert s. induction (N.lt_wf_0 x) as [x _ IH]; intros s Hs.
  destruct (decide (x = 0)%N) as [->|Hx]; [by rewrite pretty_N_go_0|].
  rewrite pretty_N_go_step by lia.
  apply IH; [apply N.div_lt; lia|].
  cbn [all_chars]. by rewrite numeric_pretty_N_char, Hs.
Qed.

Lemma numeric_pretty_N (x : N) : all_chars numeric (pretty x) = true.
Proof.
  unfold pretty, pretty_N. case_decide; [done|].
  by apply numeric_pretty_N_go.
Qed.

Lemma numeric_str z : all_chars numeric (str z) = true.
Proof.
  unfold str, pretty, pretty_Z. destruct z as [|p|p]; [done|..].
  - apply numeric_pretty_N.
  - rewrite all_chars_app. apply andb_true_iff. split; [done|].
    apply numeric_pretty_N.
Qed.

Lemma numeric_zeros n :
  all_chars numeric (String.concat "" (replicate n "0")) = true.
Proof.
  induction n as [|n IH]; [done|].
  cbn [replicate String.concat]. destruct (replicate n "0") as [|z l] eqn:E.
  - done.
  - rewrite !all_chars_app, IH. done.
Qed.

Lemma numeric_format_02d z : all_chars numeric (format_02d z) = true.
Proof.
  unfold format_02d. rewrite !all_chars_app, numeric_zeros.
  assert (H : all_chars numeric (pretty (Z.abs z)) = true).
  { apply (numeric_str (Z.abs z)). }
  rewrite H. by destruct (z <? 0).
Qed.

(** *** The layout of the generated file, for any [imt_size] *)

Lemma generate_layout imt_size :
  printed (generate imt_size)
  = [license; "package android.libcore;"; imports; description]
    ++ ["@RunWith(AndroidJUnit4.class)";
        "@LargeTest";
        "public class ImtConflictPerfTest {";
        "    @Rule";
        "    public PerfStatusReporter mPerfStatusReporter = new PerfStatusReporter();";
        ""]
    ++ (["    @Before"; "    public void setup() {"]
        ++ concat ((fun i => warmup_block (class_name i) (instance_name i)
                               (warmup_helpers imt_size i))
                   <$> range max_conflict_depth)
        ++ ["    }"])
    ++ concat ((fun i => benchmark_block (benchmark_name (i + 1)) (class_name i)
                           (instance_name i) (benchmark_helpers imt_size i))
               <$> range max_conflict_depth)
    ++ ((fun i => helper_decl (helper_name imt_size i) (interface_name i)
                    (method_name (imt_size * i)))
        <$> range max_conflict_depth)
    ++ ((fun i => class_line (class_name i) (class_interfaces i))
        <$> range max_conflict_depth)
    ++ concat ((fun i => interface_block (interface_name i)
                           (method_name <$> interface_methods imt_size i))
               <$> range max_conflict_depth)
    ++ ["}"].
Proof.
  rewrite (runs_printed _ _ (generate_runs imt_size)),
    (runs_printed _ _ emit_header_runs),
    (runs_printed _ _ emit_class_open_runs),
    (runs_printed _ _ (emit_setup_runs imt_size)),
    (runs_printed _ _ (emit_benchmarks_runs imt_size)),
    (runs_printed _ _ (emit_helpers_runs imt_size)),
    (runs_printed _ _ emit_classes_runs),
    (runs_printed _ _ (emit_interfaces_runs imt_size)).
  reflexivity.
Qed.

(** *** Braces and parentheses *)

Section Nesting.

(** The pair of delimiters: braces or parentheses. *)
Variables opening closing : ascii.
Hypothesis Hpair :
  (opening, closing) = ("{"%char, "}"%char)
  \/ (opening, closing) = ("("%char, ")"%char).

Lemma nest_seq d d1 a b r :
  nest opening closing d a = Some d1 ->
  nest opening closing d1 b = r ->
  nest opening closing d (a +:+ b) = r.
Proof.
  revert d. induction a as [|x a IH]; intros d Ha Hb.
  - by injection Ha as ->.
  - rewrite append_cons. cbn [nest] in *.
    destruct (Ascii.eqb x opening); [by eapply IH|].
    destruct (Ascii.eqb x closing); [|by eapply IH].
    destruct d; [done|by eapply IH].
Qed.

Lemma numeric_delimiters : numeric opening = false /\ numeric closing = false.
Proof. by destruct Hpair as [[= -> ->]|[= -> ->]]. Qed.

Lemma nest_numeric d s :
  all_chars numeric s = true -> nest opening closing d s = Some d.
Proof.
  destruct numeric_delimiters as [Ho Hc].
  induction s as [|x s IH]; [done|].
  cbn [all_chars nest]. intros [Hx Hs]%andb_true_iff.
  destruct (Ascii.eqb_spec x opening) as [->|_]; [congruence|].
  destruct (Ascii.eqb_spec x closing) as [->|_]; [congruence|].
  by apply IH.
Qed.

Lemma nest_str d z : nest opening closing d (str z) = Some d.
Proof. apply nest_numeric, numeric_str. Qed.

Lemma nest_format_02d d z : nest opening closing d (format_02d z) = Some d.
Proof. apply nest_numeric, numeric_format_02d. Qed.

Lemma nest_interface_name d i :
  nest opening closing d (interface_name i) = Some d.
Proof.
  unfold interface_name. eapply nest_seq; [|apply nest_str].
  by destruct Hpair as [[= -> ->]|[= -> ->]].
Qed.

Lemma nest_join_interfaces d (l : list Z) :
  nest opening closing d (join ", " (interface_name <$> l)) = Some d.
Proof.
  unfold join. induction l as [|i l IH]; [done|].
  destruct l as [|i' l]; [apply nest_interface_name|].
  change (String.concat ", " (interface_name <$> i :: i' :: l))
    with (interface_name i +:+ ", "
          +:+ String.concat ", " (interface_name <$> i' :: l)).
  eapply nest_seq; [apply nest_interface_name|].
  eapply nest_seq; [|exact IH].
  by destruct Hpair as [[= -> ->]|[= -> ->]].
Qed.

Lemma nest_lines_fmap {A} (f : A -> string) (l : list A) d :
  (forall x d', nest opening closing d' (f x) = Some d') ->
  nest opening closing d (stdout_text (f <$> l)) = Some d.
Proof.
  intros Hf. induction l as [|x l IH]; [done|].
  cbn [fmap list_fmap stdout_text].
  eapply nest_seq; [apply Hf|].
  eapply nest_seq; [|exact IH].
  by destruct Hpair as [[= -> ->]|[= -> ->]].
Qed.

Lemma nest_lines_concat {A} (g : A -> list string) (l : list A) d :
  (forall x d', nest opening closing d' (stdout_text (g x)) = Some d') ->
  nest opening closing d (stdout_text (concat (g <$> l))) = Some d.
Proof.
  intros Hg. induction l as [|x l IH]; [done|].
  cbn [fmap list_fmap concat]. rewrite stdout_text_app.
  eapply nest_seq; [apply Hg|exact IH].
Qed.

End Nesting.

(** Walk through a text made of literals, printed integers and loops. *)
Ltac nest_solve :=
  lazymatch goal with
  | |- nest _ _ _ (str _) = _ => apply nest_str; assumption
  | |- nest _ _ _ (format_02d _) = _ => apply nest_format_02d; assumption
  | |- nest _ _ _ (join _ _) = _ => apply nest_join_interfaces; assumption
  | |- nest _ _ _ (stdout_text (_ ++ _)) = _ =>
      rewrite stdout_text_app; nest_solve
  | |- nest _ _ _ (stdout_text (concat _)) = _ =>
      apply nest_lines_concat; intros ??; cbv beta; nest_solve
  | |- nest _ _ _ (interface_name _) = _ =>
      apply nest_interface_name; assumption
  | |- nest _ _ _ (stdout_text (_ <$> (_ <$> _))) = _ =>
      rewrite <- list_fmap_compose; unfold compose; nest_solve
  | |- nest _ _ _ (stdout_text (_ <$> _)) = _ =>
      apply nest_lines_fmap; [assumption|]; intros ??; cbv beta; nest_solve
  | |- nest _ _ _ (stdout_text (_ :: _)) = _ =>
      cbn [stdout_text]; nest_solve
  | |- nest _ _ _ (_ +:+ _) = _ =>
      eapply nest_seq; [nest_solve|nest_solve]
  | |- _ => reflexivity
  end.

Lemma generate_nesting opening closing :
  (opening, closing) = ("{"%char, "}"%char)
  \/ (opening, closing) = ("("%char, ")"%char) ->
  forall imt_size,
    nest opening closing 0 (stdout_text (printed (generate imt_size))) = Some 0%nat.
Proof.
  intros Hpair imt_size. rewrite generate_layout.
  unfold warmup_block, benchmark_block, interface_block, helper_decl,
    class_line, method_decl, new_instance, call_stmt, warmup_helpers,
    benchmark_helpers, class_interfaces, benchmark_name, helper_name,
    class_name, instance_name, method_name.
  destruct Hpair as [[= -> ->]|[= -> ->]].
  - pose proof (or_introl eq_refl
      : ("{"%char, "}"%char) = ("{"%char, "}"%char)
        \/ ("{"%char, "}"%char) = ("("%char, ")"%char)) as Hpair.
    nest_solve.
  - pose proof (or_intror eq_refl
      : ("("%char, ")"%char) = ("{"%char, "}"%char)
        \/ ("("%char, ")"%char) = ("("%char, ")"%char)) as Hpair.
    nest_solve.
Qed.

(** X2. Whatever [imt_size] is, the braces of the generated text are
    properly nested and all closed at the end, and so are its parentheses:
    scanning from depth 0 never closes below depth 0 and ends at depth 0. *)
Theorem generated_text_nested (imt_size : Z) :
  nest "{" "}" 0 (stdout_text (printed (generate imt_size))) = Some 0%nat
  /\ nest "(" ")" 0 (stdout_text (printed (generate imt_size))) = Some 0%nat.
Proof.
  split; apply generate_nesting; [by left|by right].
Qed.

(** *** The size of the generated file *)

Lemma length_warmup_block imt_size i :
  0 <= i ->
  length (warmup_block (class_name i) (instance_name i) (warmup_helpers imt_size i))
  = Z.to_nat (i + 2).
Proof.
  intros Hi. unfold warmup_block, warmup_helpers.
  cbn [length]. rewrite !length_fmap, length_range. lia.
Qed.

Lemma length_benchmark_block imt_size i :
  length (benchmark_block (benchmark_name (i + 1)) (class_name i)
            (instance_name i) (benchmark_helpers imt_size i))
  = 27%nat.
Proof. reflexivity. Qed.

Lemma length_interface_block imt_size i :
  length (interface_block (interface_name i)
            (method_name <$> interface_methods imt_size i))
  = (Z.to_nat imt_size + 2)%nat.
Proof.
  unfold interface_block, interface_methods.
  rewrite !length_app, !length_fmap, length_range. simpl. lia.
Qed.

(** X1. The script makes 864 [print] calls plus 20 for every unit of
    [imt_size] (none extra when [imt_size] is zero or negative); the setup
    method accounts for 233 of them and every benchmark method for 27. *)
Theorem generated_line_count (imt_size : Z) :
  length (printed (generate imt_size)) = (864 + 20 * Z.to_nat imt_size)%nat
  /\ length (printed (emit_setup imt_size)) = 233%nat
  /\ length (printed (emit_benchmarks imt_size)) = (20 * 27)%nat
  /\ length (printed (emit_interfaces imt_size))
     = (20 * (Z.to_nat imt_size + 2))%nat.
Proof.
  assert (Hsetup : length (printed (emit_setup imt_size)) = 233%nat).
  { rewrite (runs_printed _ _ (emit_setup_runs imt_size)),
      range_max_conflict_depth.
    cbn [fmap list_fmap concat].
    rewrite !length_app, !length_warmup_block by lia. reflexivity. }
  assert (Hbench : length (printed (emit_benchmarks imt_size)) = (20 * 27)%nat).
  { rewrite (runs_printed _ _ (emit_benchmarks_runs imt_size)),
      range_max_conflict_depth.
    cbn [fmap list_fmap concat].
    rewrite !length_app, !length_benchmark_block. reflexivity. }
  assert (Hifaces : length (printed (emit_interfaces imt_size))
                    = (20 * (Z.to_nat imt_size + 2))%nat).
  { rewrite (runs_printed _ _ (emit_interfaces_runs imt_size)),
      range_max_conflict_depth.
    cbn [fmap list_fmap concat].
    rewrite !length_app, !length_interface_block. simpl. lia. }
  split; [|done].
  rewrite (runs_printed _ _ (generate_runs imt_size)), !length_app.
  rewrite Hsetup, Hbench, Hifaces.
  rewrite (runs_printed _ _ (emit_helpers_runs imt_size)),
    (runs_printed _ _ emit_classes_runs), !length_fmap.
  simpl. lia.
Qed.

(** *** Names, calls and the declarations they refer to *)

Lemma helper_names_zero i : helper_name 0 i = "callF0".
Proof. reflexivity. Qed.

Lemma length_append (a b : string) :
  String.length (a +:+ b) = (String.length a + String.length b)%nat.
Proof. induction a as [|c a IH]; [done|]. rewrite append_cons. simpl. by rewrite IH. Qed.

Lemma append_inj_r (a b s : string) : a +:+ s = b +:+ s -> a = b.
Proof.
  revert b. induction a as [|c a IH]; intros [|d b] H; [done|..].
  - apply (f_equal String.length) in H.
    rewrite !length_append in H. simpl in H. lia.
  - apply (f_equal String.length) in H.
    rewrite !length_append in H. simpl in H. lia.
  - rewrite !append_cons in H. injection H as -> H. f_equal. by apply IH.
Qed.

(** Two texts without [c], each followed by [c], are cut at the same place. *)
Lemma append_split (c : ascii) (a b r r' : string) :
  all_chars (fun x => negb (Ascii.eqb x c)) a = true ->
  all_chars (fun x => negb (Ascii.eqb x c)) b = true ->
  a +:+ String c r = b +:+ String c r' -> a = b /\ r = r'.
Proof.
  revert b. induction a as [|x a IH]; intros [|y b] Ha Hb H.
  - by injection H as ->.
  - rewrite append_cons in H. injection H as <- _.
    cbn [all_chars] in Hb. by rewrite Ascii.eqb_refl in Hb.
  - rewrite append_cons in H. injection H as -> _.
    cbn [all_chars] in Ha. by rewrite Ascii.eqb_refl in Ha.
  - rewrite !append_cons in H. injection H as -> H.
    cbn [all_chars] in Ha, Hb.
    apply andb_true_iff in Ha as [_ Ha]. apply andb_true_iff in Hb as [_ Hb].
    destruct (IH b Ha Hb H) as [-> ->]. done.
Qed.

Lemma str_without (c : ascii) z :
  numeric c = false -> all_chars (fun x => negb (Ascii.eqb x c)) (str z) = true.
Proof.
  intros Hc. apply (all_chars_weaken numeric); [|apply numeric_str].
  intros x Hx. destruct (Ascii.eqb_spec x c) as [->|]; [congruence|done].
Qed.

Lemma helper_line_inj imt_size i j :
  helper_decl (helper_name imt_size i) (interface_name i) (method_name (imt_size * i))
  = helper_decl (helper_name imt_size j) (interface_name j) (method_name (imt_size * j)) ->
  i = j.
Proof.
  assert (Hform : forall k,
    helper_decl (helper_name imt_size k) (interface_name k)
      (method_name (imt_size * k))
    = "    public void callF"
      +:+ (str (imt_size * k)
           +:+ String "("
                 ("I" +:+ (str k
                           +:+ String " "
                                 ("i) { i." +:+ method_name (imt_size * k)
                                  +:+ "(); }")))))
    by (intros k; unfold helper_decl, helper_name, interface_name;
        by rewrite !append_assoc).
  rewrite !Hform. intros H.
  apply (inj (String.append _)) in H.
  apply (append_split "("%char) in H as [_ H]; [|by apply str_without..].
  apply (inj (String.append _)) in H.
  apply (append_split " "%char) in H as [H _]; [|by apply str_without..].
  by apply (inj str).
Qed.

Lemma class_line_inj i j :
  class_line (class_name i) (class_interfaces i)
  = class_line (class_name j) (class_interfaces j) -> i = j.
Proof.
  assert (Hform : forall k,
    class_line (class_name k) (class_interfaces k)
    = "    static class C"
      +:+ (str k
           +:+ String " "
                 ("implements " +:+ join ", " (class_interfaces k) +:+ " {}")))
    by (intros k; unfold class_line, class_name; by rewrite !append_assoc).
  rewrite !Hform. intros H.
  apply (inj (String.append _)) in H.
  apply (append_split " "%char) in H as [H _]; [|by apply str_without..].
  by apply (inj str).
Qed.

(** X3. The helper loop, the class loop and the benchmark loop print one
    declaration per index 0..19. The 20 helper declaration lines are
    pairwise distinct for every [imt_size], and so are the 20 class
    declaration lines; the 20 benchmark method names are pairwise
    distinct; the 20 helper names [callF{imt_size*i}] are pairwise
    distinct exactly when [imt_size] is not zero. *)
Theorem declared_names_distinct (imt_size : Z) :
  printed (emit_helpers imt_size)
  = (fun i => helper_decl (helper_name imt_size i) (interface_name i)
                (method_name (imt_size * i)))
    <$> range max_conflict_depth
  /\ NoDup (printed (emit_helpers imt_size))
  /\ (NoDup (helper_name imt_size <$> range max_conflict_depth)
      <-> imt_size <> 0)
  /\ printed emit_classes
     = (fun i => class_line (class_name i) (class_interfaces i))
       <$> range max_conflict_depth
  /\ NoDup (printed emit_classes)
  /\ printed (emit_benchmarks imt_size)
     = concat ((fun i => benchmark_block (benchmark_name (i + 1)) (class_name i)
                           (instance_name i) (benchmark_helpers imt_size i))
               <$> range max_conflict_depth)
  /\ NoDup ((fun i => benchmark_name (i + 1)) <$> range max_conflict_depth).
Proof.
  pose proof (runs_printed _ _ (emit_helpers_runs imt_size)) as Hh.
  pose proof (runs_printed _ _ emit_classes_runs) as Hc.
  split; [exact Hh|]. split.
  { rewrite Hh. apply NoDup_fmap_2_strong; [|apply NoDup_seqZ].
    intros i j _ _. apply helper_line_inj. }
  split.
  { split.
    - intros Hnd ->. rewrite range_max_conflict_depth in Hnd.
      cbn [fmap list_fmap] in Hnd. rewrite !helper_names_zero in Hnd.
      apply NoDup_cons in Hnd as [Hnotin _]. apply Hnotin. left.
    - intros Hn. apply NoDup_fmap_2_strong; [|apply NoDup_seqZ].
      intros x y _ _. by apply helper_name_inj. }
  split; [exact Hc|]. split.
  { rewrite Hc. apply NoDup_fmap_2_strong; [|apply NoDup_seqZ].
    intros i j _ _. apply class_line_inj. }
  split; [apply (runs_printed _ _ (emit_benchmarks_runs imt_size))|].
  apply (bool_decide_unpack _). vm_compute. exact I.
Qed.

Lemma elem_of_benchmark_helpers imt_size i h :
  h ∈ benchmark_helpers imt_size i
  <-> exists j, 0 <= j < max_conflict_depth
                /\ h = helper_name imt_size (j `mod` (i + 1)).
Proof.
  unfold benchmark_helpers. rewrite list_elem_of_fmap.
  by setoid_rewrite elem_of_range; split; intros (j & ? & ?); exists j.
Qed.

Lemma elem_of_warmup_helpers imt_size i h :
  h ∈ warmup_helpers imt_size i
  <-> exists k, 0 <= k <= i /\ h = helper_name imt_size k.
Proof.
  unfold warmup_helpers. rewrite list_elem_of_fmap.
  setoid_rewrite elem_of_range.
  split; intros (k & ? & ?); exists k; split; (done || lia).
Qed.

Lemma benchmark_helpers_warmup imt_size i h :
  0 <= i < max_conflict_depth ->
  h ∈ benchmark_helpers imt_size i <-> h ∈ warmup_helpers imt_size i.
Proof.
  intros Hi. rewrite elem_of_benchmark_helpers, elem_of_warmup_helpers.
  unfold max_conflict_depth in *. split.
  - intros (j & Hj & ->). exists (j `mod` (i + 1)). split; [|done].
    pose proof (Z.mod_pos_bound j (i + 1)). lia.
  - intros (k & Hk & ->). exists k. split; [lia|].
    by rewrite Z.mod_small by lia.
Qed.

Lemma call_stmt_inj indent var h h' :
  call_stmt indent var h = call_stmt indent var h' -> h = h'.
Proof.
  unfold call_stmt. intros H. apply (inj (String.append _)) in H.
  by apply append_inj_r in H.
Qed.

(** Whether the timed loop of conflict depth [i + 1] prints the call of a
    helper on [c{i}], and whether the warm-up of [C{i}] does. *)
Lemma timed_call_printed imt_size i k :
  call_stmt "            " (instance_name i) (helper_name imt_size k)
    ∈ printed (benchmark_method imt_size i)
  <-> helper_name imt_size k ∈ benchmark_helpers imt_size i.
Proof.
  rewrite (runs_printed _ _ (benchmark_method_runs imt_size i)).
  unfold benchmark_block. split.
  - intros H.
    assert (Hstart : forall l,
      call_stmt "            " (instance_name i) (helper_name imt_size k) = l ->
      starts_with "            c" l = true) by (by intros l <-).
    rewrite !elem_of_app, list_elem_of_fmap in H.
    destruct H as [H|[(h & Heq & Hh)|H]].
    + repeat (apply elem_of_cons in H as [H|H]; [by apply Hstart in H|]).
      by apply elem_of_nil in H.
    + by apply call_stmt_inj in Heq as ->.
    + repeat (apply elem_of_cons in H as [H|H]; [by apply Hstart in H|]).
      by apply elem_of_nil in H.
  - intros H. rewrite !elem_of_app. right. left.
    by apply list_elem_of_fmap_2.
Qed.

Lemma warmup_call_printed imt_size i k :
  call_stmt "        " (instance_name i) (helper_name imt_size k)
    ∈ printed (setup_class imt_size i)
  <-> helper_name imt_size k ∈ warmup_helpers imt_size i.
Proof.
  rewrite (runs_printed _ _ (setup_class_runs imt_size i)).
  unfold warmup_block. split.
  - intros [H|(h & Heq & Hh)%list_elem_of_fmap]%elem_of_cons.
    + apply (f_equal (starts_with "        c")) in H. done.
    + by apply call_stmt_inj in Heq as ->.
  - intros H. right. by apply list_elem_of_fmap_2.
Qed.

(** X5. For [i] in 0..19 the timed loop of conflict depth [i + 1] prints
    the call of helper [callF{imt_size*k}] on [c{i}] exactly when the
    warm-up of class [C{i}] prints it: nothing is timed that was not
    warmed up, and every warmed-up helper is timed. *)
Theorem timed_helpers_are_warmed_up (imt_size i : Z)
    (Hi : 0 <= i < max_conflict_depth) (k : Z) :
  (call_stmt "            " (instance_name i) (helper_name imt_size k)
     ∈ printed (benchmark_method imt_size i)
   <-> call_stmt "        " (instance_name i) (helper_name imt_size k)
         ∈ printed (setup_class imt_size i))
  /\ (0 <= k <= i ->
      call_stmt "        " (instance_name i) (helper_name imt_size k)
        ∈ printed (setup_class imt_size i)).
Proof.
  rewrite timed_call_printed, warmup_call_printed.
  split; [by apply benchmark_helpers_warmup|].
  intros Hk. apply elem_of_warmup_helpers. by exists k.
Qed.

Lemma timed_helpers_are_warmed_up_witness :
  0 <= 2 < max_conflict_depth
  /\ ("            callF128(c2);" ∈ printed (benchmark_method 64 2)
      <-> "        callF128(c2);" ∈ printed (setup_class 64 2)).
Proof.
  split; [done|].
  exact (proj1 (timed_helpers_are_warmed_up 64 2 ltac:(done) 2)).
Defined.

(** X4. For a non-zero [imt_size] and [i] in 0..19, every call in the
    warm-up and in the timed loop of class [C{i}] names a helper that the
    script declares, and the only declared helper of that name takes a
    parameter of an interface that [C{i}] implements: the instance [c{i}]
    is a legal argument of every call. *)
Theorem calls_are_well_typed (imt_size i : Z)
    (Hnz : imt_size <> 0) (Hi : 0 <= i < max_conflict_depth) (h : string)
    (Hcall : h ∈ warmup_helpers imt_size i \/ h ∈ benchmark_helpers imt_size i) :
  exists k,
    0 <= k <= i
    /\ h = helper_name imt_size k
    /\ helper_decl h (interface_name k) (method_name (imt_size * k))
       ∈ printed (emit_helpers imt_size)
    /\ interface_name k ∈ class_interfaces i
    /\ forall k', 0 <= k' < max_conflict_depth ->
         helper_name imt_size k' = h -> k' = k.
Proof.
  assert (Hw : h ∈ warmup_helpers imt_size i).
  { destruct Hcall as [H|H]; [done|].
    by apply (benchmark_helpers_warmup imt_size i). }
  apply elem_of_warmup_helpers in Hw as (k & Hk & ->).
  exists k. split; [done|]. split; [done|].
  unfold max_conflict_depth in *.
  split.
  { rewrite (runs_printed _ _ (emit_helpers_runs imt_size)).
    apply (list_elem_of_fmap_2
             (fun k => helper_decl (helper_name imt_size k) (interface_name k)
                         (method_name (imt_size * k)))).
    apply elem_of_range. unfold max_conflict_depth. lia. }
  split.
  { unfold class_interfaces. apply list_elem_of_fmap_2, elem_of_range. lia. }
  intros k' _ Heq. by apply (helper_name_inj imt_size).
Qed.

Lemma calls_are_well_typed_witness :
  64 <> 0 /\ 0 <= 2 < max_conflict_depth
  /\ "callF64" ∈ warmup_helpers 64 2
  /\ exists k, 0 <= k <= 2 /\ "callF64" = helper_name 64 k
               /\ interface_name k ∈ class_interfaces 2.
Proof.
  assert (Hin : "callF64" ∈ warmup_helpers 64 2).
  { vm_compute. right. left. }
  split; [lia|]. split; [done|]. split; [exact Hin|].
  destruct (calls_are_well_typed 64 2 ltac:(lia) ltac:(done) "callF64"
              (or_introl Hin)) as (k & Hk & Hname & _ & Himpl & _).
  exists k. exact (conj Hk (conj Hname Himpl)).
Defined.

(** *** The rotation of the timed loop *)

Lemma benchmark_helpers_targets imt_size i :
  benchmark_helpers imt_size i = helper_name imt_size <$> benchmark_targets i.
Proof.
  unfold benchmark_helpers, benchmark_targets.
  by rewrite <- list_fmap_compose.
Qed.

Lemma benchmark_targets_count i k :
  0 <= i < max_conflict_depth -> 0 <= k <= i ->
  Z.of_nat (length (filter (fun t => t = k) (benchmark_targets i)))
  = 20 `div` (i + 1) + (if k <? 20 `mod` (i + 1) then 1 else 0).
Proof.
  intros Hi Hk.
  assert (Hk' : 0 <= k < max_conflict_depth) by (unfold max_conflict_depth in *; lia).
  depth_cases i Hi; depth_cases k Hk'; first [lia | vm_compute; reflexivity].
Qed.

(** X6. For [i] in 0..19 the timed loop of conflict depth [i + 1] prints,
    after its five opening lines, 20 calls on [c{i}] that go round the
    [i + 1] interfaces of the class in turn: line [5 + j] calls the
    helper of interface [j mod (i + 1)]. Interface [k] is thus served
    [20 div (i + 1)] times, once more for the first [20 mod (i + 1)]
    interfaces, and any two interfaces differ by at most one call. *)
Theorem timed_calls_rotate (imt_size i k : Z)
    (Hi : 0 <= i < max_conflict_depth) (Hk : 0 <= k <= i) :
  printed (benchmark_method imt_size i)
  = benchmark_block (benchmark_name (i + 1)) (class_name i) (instance_name i)
      (helper_name imt_size <$> benchmark_targets i)
  /\ (forall j, 0 <= j < max_conflict_depth ->
        printed (benchmark_method imt_size i) !! (5 + Z.to_nat j)%nat
        = Some (call_stmt "            " (instance_name i)
                  (helper_name imt_size (j `mod` (i + 1)))))
  /\ Z.of_nat (length (filter (fun t => t = k) (benchmark_targets i)))
     = 20 `div` (i + 1) + (if k <? 20 `mod` (i + 1) then 1 else 0)
  /\ forall k', 0 <= k' <= i ->
       Z.abs (Z.of_nat (length (filter (fun t => t = k) (benchmark_targets i)))
              - Z.of_nat (length (filter (fun t => t = k') (benchmark_targets i))))
       <= 1.
Proof.
  pose proof (runs_printed _ _ (benchmark_method_runs imt_size i)) as Hrun.
  split; [by rewrite Hrun, benchmark_helpers_targets|].
  split.
  { intros j Hj. rewrite Hrun. unfold benchmark_block.
    change (?l !! (5 + Z.to_nat j)%nat)
      with ((((call_stmt "            " (instance_name i))
                <$> benchmark_helpers imt_size i)
             ++ ["        }"; "    }"]) !! Z.to_nat j).
    rewrite lookup_app_l
      by (unfold benchmark_helpers;
          rewrite !length_fmap, length_range; unfold max_conflict_depth in *; lia).
    unfold benchmark_helpers. by rewrite !list_lookup_fmap, lookup_range. }
  split; [by apply benchmark_targets_count|].
  intros k' Hk'.
  rewrite !benchmark_targets_count by done.
  destruct (k <? _), (k' <? _); lia.
Qed.

Lemma timed_calls_rotate_witness :
  0 <= 5 < max_conflict_depth /\ 0 <= 1 <= 5
  /\ printed (benchmark_method 1 5) !! 12%nat = Some "            callF1(c5);"
  /\ Z.of_nat (length (filter (fun t => t = 1) (benchmark_targets 5))) = 4.
Proof.
  split; [done|]. split; [done|].
  destruct (timed_calls_rotate 1 5 1 ltac:(done) ltac:(done)) as (_ & Hl & H & _).
  exact (conj (Hl 7 ltac:(done)) H).
Defined.

(** *** The hash of the documentation comment *)

Lemma imt_slot_multiple imt_size :
  (forall i, 0 <= i < max_conflict_depth -> imt_slot (imt_size * i) = 0)
  <-> (64 | imt_size).
Proof.
  unfold imt_slot. split.
  - intros H. specialize (H 1 ltac:(done)). rewrite Z.mul_1_r in H.
    by apply Z.mod_divide.
  - intros [m ->] i _. rewrite <- Z.mul_assoc, (Z.mul_comm 64), Z.mul_assoc.
    by apply Z.mod_mul.
Qed.

(** X7. The documentation comment the script prints says that interface
    methods are hashed by their method index modulo 64. Under that hash
    the methods that the 20 dispatch helpers call, [f{imt_size*i}], all
    fall in slot 0 (the conflicts the comment promises) exactly when
    [imt_size] is a multiple of 64; and for [imt_size = 64] the 64 methods
    that interface [I{i}] declares occupy the slots 0..63 once each, in
    order. *)
Theorem documented_conflicts (imt_size : Z) :
  contains "hash interface methods by taking their method index modulo 64"
    description = true
  /\ (forall i, printed (dispatch_helper imt_size i)
                = [helper_decl (helper_name imt_size i) (interface_name i)
                     (method_name (imt_size * i))])
  /\ ((forall i, 0 <= i < max_conflict_depth -> imt_slot (imt_size * i) = 0)
      <-> (64 | imt_size))
  /\ forall i,
       printed (interface_decl 64 i)
       = interface_block (interface_name i)
           (method_name <$> interface_methods 64 i)
       /\ imt_slot <$> interface_methods 64 i = range 64.
Proof.
  split; [vm_compute; reflexivity|].
  split; [intros i; reflexivity|].
  split; [apply imt_slot_multiple|].
  intros i. split; [apply (runs_printed _ _ (interface_decl_runs 64 i))|].
  unfold interface_methods. rewrite <- list_fmap_compose.
  rewrite <- (list_fmap_id (range 64)) at 2.
  apply list_fmap_ext. intros n j Hj%list_elem_of_lookup_2%elem_of_range.
  unfold compose, imt_slot.
  rewrite Z.add_comm, Z.mod_add by lia. by apply Z.mod_small.
Qed.

(** ** The script under the limit on integer conversions *)

(** *** How many digits an integer has *)

Lemma pow10_succ (k : nat) :
  (10 ^ N.of_nat (S k) = 10 * 10 ^ N.of_nat k)%N.
Proof. rewrite Nat2N.inj_succ. apply N.pow_succ_r'. Qed.

Lemma length_pretty_N_go_ge x s :
  (String.length s <= String.length (pretty_N_go x s))%nat.
Proof.
  revert s. induction (N.lt_wf_0 x) as [x _ IH]; intros s.
  destruct (decide (x = 0)%N) as [->|Hx]; [by rewrite pretty_N_go_0|].
  rewrite pretty_N_go_step by lia.
  etransitivity; [|apply IH; apply N.div_lt; lia]. simpl. lia.
Qed.

Lemma length_pretty_N_go_le (k : nat) x s :
  (x < 10 ^ N.of_nat k)%N ->
  (String.length (pretty_N_go x s) <= String.length s + k)%nat.
Proof.
  revert x s. induction k as [|k IH]; intros x s Hx.
  - assert (x = 0%N) as -> by (simpl in Hx; lia).
    rewrite pretty_N_go_0. lia.
  - destruct (decide (x = 0)%N) as [->|Hx0]; [rewrite pretty_N_go_0; lia|].
    rewrite pretty_N_go_step by lia.
    etransitivity; [apply IH|simpl; lia].
    apply N.Div0.div_lt_upper_bound. by rewrite <- pow10_succ.
Qed.

Lemma length_pretty_N_go_gt (k : nat) x s :
  (10 ^ N.of_nat k <= x)%N ->
  (String.length s + k < String.length (pretty_N_go x s))%nat.
Proof.
  revert x s. induction k as [|k IH]; intros x s Hx.
  - assert (0 < x)%N by (simpl in Hx; lia).
    rewrite pretty_N_go_step by done.
    eapply Nat.lt_le_trans; [|apply length_pretty_N_go_ge]. simpl. lia.
  - assert (0 < 10 ^ N.of_nat (S k))%N by (apply N.neq_0_lt_0, N.pow_nonzero; lia).
    rewrite pretty_N_go_step by lia.
    eapply Nat.le_lt_trans; [|apply IH].
    + simpl. lia.
    + apply N.div_le_lower_bound; [done|]. by rewrite <- pow10_succ.
Qed.

Lemma str_abs z : str (Z.abs z) = pretty (Z.abs_N z).
Proof. by destruct z. Qed.

Lemma digit_bound_N : Z.of_N (10 ^ N.of_nat max_str_digits) = digit_bound.
Proof. vm_compute. reflexivity. Qed.

Lemma fits_below z : Z.abs z < digit_bound -> fits z = true.
Proof.
  intros Hz. unfold fits, ndigits. apply Nat.leb_le.
  rewrite str_abs. unfold pretty, pretty_N.
  case_decide; [unfold max_str_digits; simpl; lia|].
  apply (length_pretty_N_go_le max_str_digits _ "").
  apply N2Z.inj_lt. rewrite digit_bound_N, N2Z.inj_abs_N. done.
Qed.

Lemma fits_above z : digit_bound <= Z.abs z -> fits z = false.
Proof.
  intros Hz. unfold fits, ndigits. apply Nat.leb_gt.
  rewrite str_abs. unfold pretty, pretty_N.
  assert (Hle : (10 ^ N.of_nat max_str_digits <= Z.abs_N z)%N).
  { apply N2Z.inj_le. by rewrite digit_bound_N, N2Z.inj_abs_N. }
  rewrite decide_False.
  - apply (length_pretty_N_go_gt max_str_digits _ "" Hle).
  - intros H0. rewrite H0 in Hle.
    assert (0 < 10 ^ N.of_nat max_str_digits)%N
      by (apply N.neq_0_lt_0, N.pow_nonzero; lia).
    lia.
Qed.

(** *** The two embeddings agree below the limit *)

Lemma bind_ret_l {A B} (a : A) (f : A -> Script B) : bind (ret a) f = f a.
Proof. unfold bind, ret. by destruct (f a). Qed.

Lemma bind_ext {A B} (m : Script A) (f g : A -> Script B) :
  (forall a, f a = g a) -> bind m f = bind m g.
Proof. intros Hfg. destruct m as [out [a|c]]; [|done]. simpl. by rewrite Hfg. Qed.

Lemma for_ext {A} (l : list A) (body1 body2 : A -> Script unit) :
  (forall x, x ∈ l -> body1 x = body2 x) -> for_ l body1 = for_ l body2.
Proof.
  induction l as [|x l IH]; intros Hb; [done|].
  cbn [for_]. rewrite (Hb x) by left. apply bind_ext. intros _.
  apply IH. intros y Hy. apply Hb. by right.
Qed.

Lemma format_fits z : Z.abs z < digit_bound -> format z = ret (str z).
Proof. intros Hz. unfold format. by rewrite fits_below. Qed.

Lemma format_02_fits z : Z.abs z < digit_bound -> format_02 z = ret (format_02d z).
Proof. intros Hz. unfold format_02. by rewrite fits_below. Qed.

Lemma format_overflow z : digit_bound <= Z.abs z -> format z = raise_uncaught.
Proof. intros Hz. unfold format. by rewrite fits_above. Qed.

Lemma digit_bound_large : 20 < digit_bound.
Proof. vm_compute. reflexivity. Qed.

Lemma comprehension_ret {A B} (l : list A) (f : A -> Script B) (g : A -> B) :
  (forall x, x ∈ l -> f x = ret (g x)) -> comprehension l f = ret (g <$> l).
Proof.
  induction l as [|x l IH]; intros Hf; [done|].
  cbn [comprehension]. rewrite (Hf x) by left.
  rewrite IH by (intros y Hy; apply Hf; by right).
  by rewrite !bind_ret_l.
Qed.

Section Agreement.

Variable imt_size : Z.
Hypothesis Hsize : 20 * Z.abs imt_size <= digit_bound.

Lemma small_fits i : 0 <= i <= max_conflict_depth -> Z.abs i < digit_bound.
Proof. pose proof digit_bound_large. unfold max_conflict_depth. lia. Qed.

Lemma multiple_fits j :
  0 <= j < max_conflict_depth -> Z.abs (imt_size * j) < digit_bound.
Proof.
  pose proof digit_bound_large. unfold max_conflict_depth.
  intros Hj. rewrite Z.abs_mul. nia.
Qed.

Lemma index_fits i j :
  0 <= i < max_conflict_depth -> 0 <= j < imt_size ->
  Z.abs (i * imt_size + j) < digit_bound.
Proof. unfold max_conflict_depth. intros Hi Hj. nia. Qed.

Lemma modulo_fits i j :
  0 <= i < max_conflict_depth ->
  Z.abs (imt_size * (j `mod` (i + 1))) < digit_bound.
Proof.
  intros Hi. apply multiple_fits. unfold max_conflict_depth in *.
  pose proof (Z.mod_pos_bound j (i + 1)). lia.
Qed.

Ltac fits_side :=
  first [ apply modulo_fits; unfold max_conflict_depth in *; lia
        | apply multiple_fits; unfold max_conflict_depth in *; lia
        | apply index_fits; unfold max_conflict_depth in *; lia
        | apply small_fits; unfold max_conflict_depth in *; lia ].

Lemma setup_class_checked_agrees i :
  0 <= i < max_conflict_depth ->
  setup_class_checked imt_size i = setup_class imt_size i.
Proof.
  intros Hi. unfold setup_class_checked, setup_class.
  rewrite format_fits, bind_ret_l by fits_side.
  apply bind_ext. intros _. apply for_ext. intros j Hj%elem_of_range.
  by rewrite !format_fits, !bind_ret_l by fits_side.
Qed.

Lemma benchmark_method_checked_agrees i :
  0 <= i < max_conflict_depth ->
  benchmark_method_checked imt_size i = benchmark_method imt_size i.
Proof.
  intros Hi. unfold benchmark_method_checked, benchmark_method.
  rewrite format_02_fits, format_fits, !bind_ret_l by fits_side.
  do 5 (apply bind_ext; intros _).
  apply (f_equal (fun m => bind m _)).
  apply for_ext. intros j Hj%elem_of_range.
  by rewrite !format_fits, !bind_ret_l by fits_side.
Qed.

Lemma dispatch_helper_checked_agrees i :
  0 <= i < max_conflict_depth ->
  dispatch_helper_checked imt_size i = dispatch_helper imt_size i.
Proof.
  intros Hi. unfold dispatch_helper_checked, dispatch_helper.
  by rewrite !format_fits, !bind_ret_l by fits_side.
Qed.

Lemma class_decl_checked_agrees i :
  0 <= i < max_conflict_depth -> class_decl_checked i = class_decl i.
Proof.
  intros Hi. unfold class_decl_checked, class_decl.
  rewrite (comprehension_ret _ _ (fun j => "I" +:+ str j)).
  - by rewrite format_fits, !bind_ret_l by fits_side.
  - intros j Hj%elem_of_range.
    by rewrite format_fits, bind_ret_l by fits_side.
Qed.

Lemma interface_decl_checked_agrees i :
  0 <= i < max_conflict_depth ->
  interface_decl_checked imt_size i = interface_decl imt_size i.
Proof.
  intros Hi. unfold interface_decl_checked, interface_decl.
  rewrite format_fits, bind_ret_l by fits_side.
  apply bind_ext. intros _. apply (f_equal (fun m => bind m _)).
  apply for_ext. intros j Hj%elem_of_range.
  by rewrite format_fits, bind_ret_l by fits_side.
Qed.

Lemma generate_checked_agrees : generate_checked imt_size = generate imt_size.
Proof.
  unfold generate_checked, generate, emit_setup_checked, emit_setup,
    emit_benchmarks_checked, emit_benchmarks, emit_helpers_checked,
    emit_helpers, emit_classes_checked, emit_classes,
    emit_interfaces_checked, emit_interfaces.
  rewrite (for_ext _ _ _ (fun i Hi =>
             setup_class_checked_agrees i (proj1 (elem_of_range _ _) Hi))).
  rewrite (for_ext _ _ _ (fun i Hi =>
             benchmark_method_checked_agrees i (proj1 (elem_of_range _ _) Hi))).
  rewrite (for_ext _ _ _ (fun i Hi =>
             dispatch_helper_checked_agrees i (proj1 (elem_of_range _ _) Hi))).
  rewrite (for_ext _ _ _ (fun i Hi =>
             class_decl_checked_agrees i (proj1 (elem_of_range _ _) Hi))).
  rewrite (for_ext _ _ _ (fun i Hi =>
             interface_decl_checked_agrees i (proj1 (elem_of_range _ _) Hi))).
  reflexivity.
Qed.

End Agreement.

(** *** Above the limit the script dies *)

Lemma dies_bind_l {A B} (m : Script A) (f : A -> Script B) :
  dies m -> dies (bind m f).
Proof.
  destruct m as [out [a|c]]; unfold dies; simpl; intros H; [discriminate|].
  by injection H as ->.
Qed.

Lemma dies_bind_r {A B} (m : Script A) (f : A -> Script B) :
  runs_or_dies m -> (forall a, dies (f a)) -> dies (bind m f).
Proof.
  intros [[a Ha]|Hd] Hf; [|by apply dies_bind_l].
  destruct m as [out r]. simpl in Ha. subst r.
  specialize (Hf a). unfold dies in *. simpl. by destruct (f a).
Qed.

Lemma runs_or_dies_bind {A B} (m : Script A) (f : A -> Script B) :
  runs_or_dies m -> (forall a, runs_or_dies (f a)) -> runs_or_dies (bind m f).
Proof.
  intros [[a Ha]|Hd] Hf; [|right; by apply dies_bind_l].
  destruct m as [out r]. simpl in Ha. subst r.
  specialize (Hf a). unfold runs_or_dies, dies in *. simpl. by destruct (f a).
Qed.

Lemma runs_or_dies_print s : runs_or_dies (print s).
Proof. left. by exists tt. Qed.

Lemma runs_or_dies_format z : runs_or_dies (format z).
Proof. unfold format. destruct (fits z); [left; by eexists|by right]. Qed.

Lemma runs_or_dies_for {A} (l : list A) (body : A -> Script unit) :
  (forall x, runs_or_dies (body x)) -> runs_or_dies (for_ l body).
Proof.
  intros Hb. induction l as [|x l IH]; [left; by exists tt|].
  cbn [for_]. by apply runs_or_dies_bind.
Qed.

Lemma dies_for {A} (l : list A) (body : A -> Script unit) x :
  (forall y, runs_or_dies (body y)) -> x ∈ l -> dies (body x) ->
  dies (for_ l body).
Proof.
  intros Hb Hx Hd. induction l as [|y l IH]; [by apply elem_of_nil in Hx|].
  cbn [for_]. apply elem_of_cons in Hx as [<-|Hx].
  - by apply dies_bind_l.
  - apply dies_bind_r; [apply Hb|]. intros _. by apply IH.
Qed.

Lemma runs_or_dies_setup_class imt_size i :
  runs_or_dies (setup_class_checked imt_size i).
Proof.
  unfold setup_class_checked.
  apply runs_or_dies_bind; [apply runs_or_dies_format|]; intros ci.
  apply runs_or_dies_bind; [apply runs_or_dies_print|]; intros _.
  apply runs_or_dies_for. intros j.
  apply runs_or_dies_bind; [apply runs_or_dies_format|]; intros h.
  apply runs_or_dies_bind; [apply runs_or_dies_format|]; intros ci'.
  apply runs_or_dies_print.
Qed.

(** The warm-up of the last class calls [callF{imt_size*19}], whose name
    cannot be printed. *)
Lemma setup_class_checked_dies imt_size :
  digit_bound <= 19 * Z.abs imt_size ->
  dies (setup_class_checked imt_size 19).
Proof.
  intros Hn. unfold setup_class_checked.
  apply dies_bind_r; [apply runs_or_dies_format|]; intros ci.
  apply dies_bind_r; [apply runs_or_dies_print|]; intros _.
  apply (dies_for _ _ 19).
  - intros j.
    apply runs_or_dies_bind; [apply runs_or_dies_format|]; intros h.
    apply runs_or_dies_bind; [apply runs_or_dies_format|]; intros ci'.
    apply runs_or_dies_print.
  - by apply elem_of_range.
  - apply dies_bind_l. rewrite format_overflow; [done|].
    rewrite Z.abs_mul. simpl. lia.
Qed.

Lemma generate_checked_dies imt_size :
  digit_bound <= 19 * Z.abs imt_size ->
  dies (generate_checked imt_size).
Proof.
  intros Hn. unfold generate_checked.
  apply dies_bind_r; [left; by exists tt|]; intros _.
  apply dies_bind_r; [left; by exists tt|]; intros _.
  apply dies_bind_l. unfold emit_setup_checked.
  apply dies_bind_r; [apply runs_or_dies_print|]; intros _.
  apply dies_bind_r; [apply runs_or_dies_print|]; intros _.
  apply dies_bind_l.
  apply (dies_for _ _ 19).
  - apply runs_or_dies_setup_class.
  - by apply elem_of_range.
  - by apply setup_class_checked_dies.
Qed.

Lemma dies_exit_status {A} (m : Script A) : dies m -> exit_status m = 1.
Proof. unfold dies, exit_status. by intros ->. Qed.

(** *** Arguments that are accepted *)

Lemma generate_file_layout imt_size :
  printed (generate imt_size) = file_layout imt_size.
Proof. apply generate_layout. Qed.

Lemma main_checked_generate int argv s imt_size :
  argv !! 1%nat = Some s -> int s = Some imt_size ->
  main_checked int argv = generate_checked imt_size.
Proof. unfold main_checked. intros -> Hint. simpl. by rewrite Hint. Qed.

Lemma file_of_ext w1 w2 b1 b2 h1 h2 m1 m2 :
  (forall i, w1 i = w2 i) -> (forall i, b1 i = b2 i) ->
  (forall i, h1 i = h2 i) -> (forall i, m1 i = m2 i) ->
  file_of w1 b1 h1 m1 = file_of w2 b2 h2 m2.
Proof.
  intros Hw Hb Hh Hm. unfold file_of.
  rewrite (list_fmap_ext
             (fun i => warmup_block (class_name i) (instance_name i) (w1 i))
             (fun i => warmup_block (class_name i) (instance_name i) (w2 i)))
    by (intros; by rewrite Hw).
  rewrite (list_fmap_ext
             (fun i => benchmark_block (benchmark_name (i + 1)) (class_name i)
                         (instance_name i) (b1 i))
             (fun i => benchmark_block (benchmark_name (i + 1)) (class_name i)
                         (instance_name i) (b2 i)))
    by (intros; by rewrite Hb).
  rewrite (list_fmap_ext h1 h2) by (intros; apply Hh).
  rewrite (list_fmap_ext
             (fun i => interface_block (interface_name i) (m1 i))
             (fun i => interface_block (interface_name i) (m2 i)))
    by (intros; by rewrite Hm).
  reflexivity.
Qed.

Lemma warmup_helpers_zero i :
  warmup_helpers 0 i = replicate (Z.to_nat (i + 1)) "callF0".
Proof.
  unfold warmup_helpers.
  rewrite (const_fmap _ _ "callF0") by done. by rewrite length_range.
Qed.

Lemma benchmark_helpers_zero i : benchmark_helpers 0 i = replicate 20 "callF0".
Proof.
  unfold benchmark_helpers. by rewrite (const_fmap _ _ "callF0") by done.
Qed.

Lemma file_layout_zero :
  file_layout 0
  = file_of (fun i => replicate (Z.to_nat (i + 1)) "callF0")
      (fun _ => replicate 20 "callF0")
      (fun i => helper_decl "callF0" (interface_name i) "f0")
      (fun _ => []).
Proof.
  unfold file_layout.
  apply file_of_ext; intros i;
    [apply warmup_helpers_zero|apply benchmark_helpers_zero
    |reflexivity|reflexivity].
Qed.

Lemma nines_accepted : Py.int nines = Some (digit_bound - 1).
Proof. vm_compute. reflexivity. Qed.

Lemma nines_overflow : digit_bound <= 19 * Z.abs (digit_bound - 1).
Proof. vm_compute. discriminate. Qed.

(** C7, the input that refutes it. [int] accepts the argument made of
    4300 nines, but the script does not run to completion on it: the
    warm-up of class [C2] has to print [callF{2*imt_size}], a number of
    4301 digits, the conversion raises [ValueError], and the process ends
    with exit status 1. So not every accepted argument leads to exit
    status 0. *)
Lemma C7_nines_counterexample :
  Py.int nines = Some (10 ^ 4300 - 1)
  /\ exit_status (program_checked ["ImtConflictPerfTestGen.py"; nines]) = 1
  /\ ~ (forall s imt_size,
          Py.int s = Some imt_size ->
          exit_status (program_checked ["ImtConflictPerfTestGen.py"; s]) = 0).
Proof.
  assert (Hdie : exit_status (program_checked ["ImtConflictPerfTestGen.py"; nines]) = 1).
  { unfold program_checked.
    rewrite (main_checked_generate Py.int ["ImtConflictPerfTestGen.py"; nines]
               nines (digit_bound - 1) eq_refl nines_accepted).
    apply dies_exit_status, generate_checked_dies, nines_overflow. }
  split; [exact nines_accepted|]. split; [exact Hdie|].
  intros Hall. specialize (Hall nines _ nines_accepted).
  rewrite Hdie in Hall. discriminate.
Qed.

Lemma main_checked_agrees int argv s imt_size :
  argv !! 1%nat = Some s -> int s = Some imt_size ->
  20 * Z.abs imt_size <= digit_bound ->
  main_checked int argv = generate imt_size.
Proof.
  intros Hs Hint Hsize. rewrite (main_checked_generate _ _ _ _ Hs Hint).
  by apply generate_checked_agrees.
Qed.

Lemma replicate_dup {A} (x : A) n : (2 <= n)%nat -> ~ NoDup (replicate n x).
Proof.
  destruct n as [|[|n]]; [lia|lia|]. intros _ [Hnotin _]%NoDup_cons.
  apply Hnotin. left.
Qed.

(** C7, as amended. Positivity is not checked: whenever [int] accepts
    the argument and [20 * |imt_size| <= 10 ^ 4300], so that every
    integer the script prints has at most 4300 digits, the script takes
    the generator path, ends with status 0 and prints the whole generated
    file for that [imt_size], not the usage line; ["0"] and ["-5"] are
    such arguments. For ["0"] the file printed has 20 empty interface
    blocks and declares no method, each of the 20 dispatch helpers is
    [callF0] calling [f0], every warm-up call and every timed call goes
    through [callF0], and so the warm-up of every class but [C0] calls
    the same helper more than once. *)
Theorem C7_no_positivity_check :
  (forall (int : string -> option Z) argv s imt_size,
      argv !! 1%nat = Some s -> int s = Some imt_size ->
      20 * Z.abs imt_size <= digit_bound ->
      exit_status (main_checked int argv) = 0
      /\ printed (main_checked int argv) = file_layout imt_size
      /\ usage ∉ printed (main_checked int argv))
  /\ Py.int "0" = Some 0
  /\ Py.int "-5" = Some (-5)
  /\ exit_status (program_checked ["ImtConflictPerfTestGen.py"; "0"]) = 0
  /\ printed (program_checked ["ImtConflictPerfTestGen.py"; "0"])
     = file_of (fun i => replicate (Z.to_nat (i + 1)) "callF0")
         (fun _ => replicate 20 "callF0")
         (fun i => helper_decl "callF0" (interface_name i) "f0")
         (fun _ => [])
  /\ (KMethod ∉ kinds (printed (program_checked ["ImtConflictPerfTestGen.py"; "0"])))
  /\ (forall i, 1 <= i < max_conflict_depth ->
        ~ NoDup (replicate (Z.to_nat (i + 1)) "callF0"))
  /\ exit_status (program_checked ["ImtConflictPerfTestGen.py"; "-5"]) = 0
  /\ printed (program_checked ["ImtConflictPerfTestGen.py"; "-5"])
     = file_layout (-5).
Proof.
  assert (Hgeneral : forall (int : string -> option Z) argv s imt_size,
    argv !! 1%nat = Some s -> int s = Some imt_size ->
    20 * Z.abs imt_size <= digit_bound ->
    exit_status (main_checked int argv) = 0
    /\ printed (main_checked int argv) = file_layout imt_size
    /\ usage ∉ printed (main_checked int argv)).
  { intros int argv s imt_size Hs Hint Hsize.
    rewrite (main_checked_agrees _ _ _ _ Hs Hint Hsize).
    split; [apply (runs_exit_status _ _ (generate_runs imt_size))|].
    split; [apply generate_file_layout|apply usage_not_generated]. }
  pose proof digit_bound_large as Hlarge.
  assert (Hzero : Py.int "0" = Some 0) by reflexivity.
  assert (Hminus : Py.int "-5" = Some (-5)) by reflexivity.
  assert (Hsize0 : 20 * Z.abs 0 <= digit_bound)
    by (apply Z.leb_le; vm_compute; reflexivity).
  assert (Hsize5 : 20 * Z.abs (-5) <= digit_bound)
    by (apply Z.leb_le; vm_compute; reflexivity).
  destruct (Hgeneral Py.int ["ImtConflictPerfTestGen.py"; "0"] "0" 0
              eq_refl Hzero Hsize0) as (Hs0 & Hp0 & _).
  destruct (Hgeneral Py.int ["ImtConflictPerfTestGen.py"; "-5"] "-5" (-5)
              eq_refl Hminus Hsize5) as (Hs5 & Hp5 & _).
  split; [exact Hgeneral|].
  split; [exact Hzero|]. split; [exact Hminus|].
  split; [exact Hs0|].
  split; [unfold program_checked; by rewrite Hp0, file_layout_zero|].
  split.
  { unfold program_checked. rewrite Hp0, <- generate_file_layout, generate_kinds.
    apply (bool_decide_unpack _). vm_compute. exact I. }
  split; [intros i Hi; apply replicate_dup; lia|].
  split; [exact Hs5|exact Hp5].
Qed.

Lemma C7_no_positivity_check_witness :
  20 * Z.abs 64 <= digit_bound
  /\ exit_status (program_checked ["ImtConflictPerfTestGen.py"; "64"]) = 0
  /\ printed (program_checked ["ImtConflictPerfTestGen.py"; "64"]) = file_layout 64.
Proof.
  pose proof digit_bound_large as Hlarge.
  assert (Hsize : 20 * Z.abs 64 <= digit_bound).
  { apply Z.leb_le. vm_compute. reflexivity. }
  split; [exact Hsize|].
  destruct C7_no_positivity_check as (Hgeneral & _).
  destruct (Hgeneral Py.int ["ImtConflictPerfTestGen.py"; "64"] "64" 64
              eq_refl eq_refl Hsize) as (H0 & Hp & _).
  exact (conj H0 Hp).
Defined.

(** *** Reading back a printed integer *)

Lemma numeric_not_space c : numeric c = true -> is_space c = false.
Proof. destruct c as [[] [] [] [] [] [] [] []]; done. Qed.

Lemma all_chars_Forall P s :
  all_chars P s = true ->
  Forall (fun c => P c = true) (list_ascii_of_string s).
Proof.
  induction s as [|c s IH]; cbn [all_chars list_ascii_of_string]; [done|].
  intros [Hc Hs]%andb_true_iff. constructor; auto.
Qed.

Lemma lstrip_numeric l :
  Forall (fun c => numeric c = true) l -> lstrip l = l.
Proof.
  destruct 1 as [|c l Hc _]; [done|].
  cbn [lstrip]. by rewrite (numeric_not_space _ Hc).
Qed.

Lemma strip_numeric l :
  Forall (fun c => numeric c = true) l -> strip l = l.
Proof.
  intros Hl. unfold strip. rewrite (lstrip_numeric _ Hl).
  rewrite lstrip_numeric, rev_involutive; [done|].
  apply Forall_forall. intros c Hc%list_elem_of_In%in_rev%list_elem_of_In.
  by apply (proj1 (Forall_forall _ _) Hl).
Qed.

Lemma digit_val_pretty_N_char d :
  (d < 10)%N -> digit_val (pretty_N_char d) = Some (Z.of_N d).
Proof.
  intros Hd.
  assert (H : d ∈ [0; 1; 2; 3; 4; 5; 6; 7; 8; 9]%N).
  { apply (bool_decide_unpack _).
    destruct d as [|[[[[]|[]|]|[[]|[]|]|]|[[[]|[]|]|[[]|[]|]|]|]]; try lia; done. }
  repeat (apply elem_of_cons in H as [->|H]); try done.
  by apply elem_of_nil in H.
Qed.

Lemma is_digit_pretty_N_char d : is_digit (pretty_N_char d) = true.
Proof. unfold pretty_N_char. by repeat case_match. Qed.

Lemma digits_pretty_N_go x s b :
  (0 < x)%N ->
  digits 0 b (list_ascii_of_string (pretty_N_go x s))
  = digits (Z.of_N x) true (list_ascii_of_string s).
Proof.
  revert s b. induction (N.lt_wf_0 x) as [x _ IH]; intros s b Hx.
  rewrite pretty_N_go_step by done.
  assert (Hmod : (x `mod` 10 < 10)%N) by (apply N.mod_lt; lia).
  destruct (decide (x `div` 10 = 0)%N) as [Hdiv|Hdiv].
  - rewrite Hdiv, pretty_N_go_0. cbn [list_ascii_of_string digits].
    rewrite (digit_val_pretty_N_char _ Hmod). f_equal.
    pose proof (N.div_mod x 10 ltac:(done)). lia.
  - rewrite IH; [|apply N.div_lt; lia|by apply N.neq_0_lt_0].
    cbn [list_ascii_of_string digits].
    rewrite (digit_val_pretty_N_char _ Hmod). f_equal.
    pose proof (N.div_mod x 10 ltac:(done)). lia.
Qed.

Lemma digit_count_cons c l :
  digit_count (c :: l) = ((if is_digit c then 1 else 0) + digit_count l)%nat.
Proof. unfold digit_count. cbn [List.filter]. by destruct (is_digit c). Qed.

Lemma digit_count_pretty_N_go x s :
  digit_count (list_ascii_of_string (pretty_N_go x s))
  = (String.length (pretty_N_go x s) - String.length s
     + digit_count (list_ascii_of_string s))%nat.
Proof.
  revert s. induction (N.lt_wf_0 x) as [x _ IH]; intros s.
  destruct (decide (x = 0)%N) as [->|Hx]; [rewrite pretty_N_go_0; lia|].
  rewrite pretty_N_go_step by lia.
  rewrite IH by (apply N.div_lt; lia).
  pose proof (length_pretty_N_go_ge (x `div` 10)
                (String (pretty_N_char (x `mod` 10)) s)) as Hge.
  cbn [list_ascii_of_string].
  rewrite digit_count_cons, is_digit_pretty_N_char.
  cbn [String.length] in *. lia.
Qed.

Lemma digit_count_str z :
  digit_count (list_ascii_of_string (str z)) = ndigits z.
Proof.
  assert (HN : forall x : N,
    digit_count (list_ascii_of_string (pretty x)) = String.length (pretty x)).
  { intros x. unfold pretty, pretty_N. case_decide; [done|].
    rewrite digit_count_pretty_N_go.
    change (digit_count (list_ascii_of_string "")) with 0%nat.
    change (String.length "") with 0%nat. lia. }
  unfold ndigits. rewrite str_abs.
  destruct z as [|p|p]; [done|apply (HN (N.pos p))|].
  change (str (Z.neg p)) with ("-" +:+ pretty (N.pos p)).
  change (Z.abs_N (Z.neg p)) with (N.pos p). rewrite <- HN. done.
Qed.

Lemma pretty_N_go_head x s :
  (0 < x)%N ->
  exists d l, list_ascii_of_string (pretty_N_go x s) = pretty_N_char d :: l.
Proof.
  revert s. induction (N.lt_wf_0 x) as [x _ IH]; intros s Hx.
  rewrite pretty_N_go_step by done.
  destruct (decide (x `div` 10 = 0)%N) as [Hdiv|Hdiv].
  - rewrite Hdiv, pretty_N_go_0. by eexists _, _.
  - apply IH; [apply N.div_lt; lia|by apply N.neq_0_lt_0].
Qed.

Lemma unsigned_literal d l :
  int_literal (pretty_N_char d :: l) = digits 0 false (pretty_N_char d :: l).
Proof. unfold int_literal, pretty_N_char. by repeat case_match. Qed.

Lemma int_pretty_positive (p : positive) :
  digits 0 false (list_ascii_of_string (pretty (N.pos p))) = Some (Z.pos p).
Proof.
  unfold pretty, pretty_N. rewrite decide_False by done.
  by rewrite digits_pretty_N_go.
Qed.

Lemma int_literal_str z : int_literal (list_ascii_of_string (str z)) = Some z.
Proof.
  destruct z as [|p|p]; [done|..].
  - change (str (Z.pos p)) with (pretty (N.pos p)).
    pose proof (int_pretty_positive p) as Hp.
    unfold pretty, pretty_N in *. rewrite decide_False in * by done.
    destruct (pretty_N_go_head (N.pos p) "" ltac:(lia)) as (d & l & Hhead).
    rewrite Hhead in *. by rewrite unsigned_literal.
  - transitivity
      (Z.opp <$> digits 0 false (list_ascii_of_string (pretty (N.pos p))));
      [reflexivity|].
    by rewrite int_pretty_positive.
Qed.

Lemma int_str z : Py.int (str z) = if fits z then Some z else None.
Proof.
  unfold Py.int.
  rewrite strip_numeric by apply all_chars_Forall, numeric_str.
  rewrite digit_count_str, int_literal_str. unfold fits.
  rewrite Nat.ltb_antisym. by destruct (ndigits z <=? max_str_digits)%nat.
Qed.

(** X9. The conversion reads back what the script's own formatting
    prints, within the limit on conversions: for an integer [z] of at most
    4300 digits [int(str(z))] is [z], and the script run on that text is
    the generator for [imt_size = z], whatever the script name and the
    arguments after the first; it prints the whole file and ends with
    status 0 when [20 * |z| <= 10 ^ 4300]. For an integer of more than
    4300 digits [int] raises [ValueError] on the text, and the script
    prints the usage line only and ends with status 1. *)
Theorem printed_integer_read_back (z : Z) (prog : string) (more : list string) :
  (Z.abs z < digit_bound ->
     Py.int (str z) = Some z
     /\ program_checked (prog :: str z :: more) = generate_checked z)
  /\ (20 * Z.abs z <= digit_bound ->
        printed (program_checked (prog :: str z :: more)) = file_layout z
        /\ exit_status (program_checked (prog :: str z :: more)) = 0)
  /\ (digit_bound <= Z.abs z ->
        Py.int (str z) = None
        /\ printed (program_checked (prog :: str z :: more)) = [usage]
        /\ exit_status (program_checked (prog :: str z :: more)) = 1).
Proof.
  assert (Hbelow : Z.abs z < digit_bound -> Py.int (str z) = Some z)
    by (intros Hz; by rewrite int_str, fits_below).
  split; [|split].
  - intros Hz. split; [by apply Hbelow|].
    apply (main_checked_generate Py.int (prog :: str z :: more) (str z) z eq_refl).
    by apply Hbelow.
  - intros Hz. pose proof digit_bound_large.
    unfold program_checked.
    rewrite (main_checked_agrees Py.int (prog :: str z :: more) (str z) z eq_refl);
      [|apply Hbelow; lia|done].
    split; [apply generate_file_layout|].
    apply (runs_exit_status _ _ (generate_runs z)).
  - intros Hz.
    assert (Hnone : Py.int (str z) = None) by (by rewrite int_str, fits_above).
    split; [done|].
    unfold program_checked, main_checked. simpl. by rewrite Hnone.
Qed.

Lemma printed_integer_read_back_witness :
  Z.abs (-12) < digit_bound
  /\ Py.int "-12" = Some (-12)
  /\ program_checked ["ImtConflictPerfTestGen.py"; "-12"; "ignored"]
     = generate_checked (-12).
Proof.
  assert (Hz : Z.abs (-12) < digit_bound).
  { apply Z.ltb_lt. vm_compute. reflexivity. }
  split; [exact Hz|].
  destruct (printed_integer_read_back (-12) "ImtConflictPerfTestGen.py" ["ignored"])
    as (Hbelow & _).
  exact (Hbelow Hz).
Defined.

(** *** Arguments that are not integers *)

Lemma elem_of_lstrip c l : c ∈ lstrip l -> c ∈ l.
Proof.
  induction l as [|x l IH]; [done|].
  cbn [lstrip]. destruct (is_space x); [|done].
  intros H. right. by apply IH.
Qed.

Lemma lstrip_keeps c l : c ∈ l -> is_space c = false -> c ∈ lstrip l.
Proof.
  intros Hc Hsp. induction l as [|x l IH]; [done|].
  cbn [lstrip]. destruct (is_space x) eqn:Hx; [|done].
  apply elem_of_cons in Hc as [->|Hc]; [congruence|by apply IH].
Qed.

Lemma elem_of_rev (c : ascii) l : c ∈ rev l <-> c ∈ l.
Proof. rewrite !list_elem_of_In. symmetry. apply in_rev. Qed.

Lemma elem_of_strip c l : c ∈ strip l -> c ∈ l.
Proof.
  unfold strip.
  by intros H%elem_of_rev%elem_of_lstrip%elem_of_rev%elem_of_lstrip.
Qed.

Lemma strip_keeps c l : c ∈ l -> is_space c = false -> c ∈ strip l.
Proof.
  intros Hc Hsp. unfold strip.
  apply elem_of_rev, lstrip_keeps; [|done].
  apply elem_of_rev. by apply lstrip_keeps.
Qed.

(** The three ways [int] reads the sign of a stripped argument. *)
Lemma int_literal_cases l :
  int_literal l = digits 0 false l
  \/ (exists l', l = "-"%char :: l' /\ int_literal l = Z.opp <$> digits 0 false l')
  \/ (exists l', l = "+"%char :: l' /\ int_literal l = digits 0 false l').
Proof.
  unfold int_literal. destruct l as [|a l']; [by left|].
  destruct a as [[] [] [] [] [] [] [] []];
    first [by left | right; left; by eexists | right; right; by eexists].
Qed.

Lemma digits_without_digit acc l :
  (forall c, c ∈ l -> digit_val c = None) -> digits acc false l = None.
Proof.
  destruct l as [|x l]; [done|]. intros Hl.
  cbn [digits]. rewrite (Hl x) by left. by rewrite andb_false_r.
Qed.

Lemma digits_bad_character c acc b l :
  c ∈ l -> digit_val c = None -> c <> "_"%char -> digits acc b l = None.
Proof.
  intros Hc Hd Hu. revert acc b.
  induction l as [|x l IH]; intros acc b; [by apply elem_of_nil in Hc|].
  cbn [digits]. apply elem_of_cons in Hc as [<-|Hc].
  - rewrite Hd. by destruct (Ascii.eqb_spec c "_").
  - destruct (digit_val x); [by apply IH|].
    destruct (_ && _); [by apply IH|done].
Qed.

Lemma printable_not_space c :
  (33 <= nat_of_ascii c <= 126)%nat -> is_space c = false.
Proof.
  intros Hc. unfold is_space.
  destruct (Nat.leb_spec 9 (nat_of_ascii c)), (Nat.leb_spec (nat_of_ascii c) 13),
    (Nat.eqb_spec (nat_of_ascii c) 32); simpl; (done || lia).
Qed.

Lemma int_rejects s :
  (forall c, c ∈ list_ascii_of_string s -> digit_val c = None)
  \/ (exists c, c ∈ list_ascii_of_string s
                /\ (33 <= nat_of_ascii c <= 126)%nat
                /\ digit_val c = None
                /\ c ∉ ["_"; "+"; "-"]%char) ->
  Py.int s = None.
Proof.
  intros Hbad. unfold Py.int.
  destruct (_ <? _)%nat; [done|].
  set (l := strip (list_ascii_of_string s)).
  assert (Hnone : forall l' : list ascii,
            (forall c, c ∈ l -> c ∈ ["+"; "-"]%char \/ c ∈ l') ->
            l' ⊆ l -> digits 0 false l' = None).
  { intros l' Hcover Hsub. destruct Hbad as [Hno|(c & Hc & Hpr & Hd & Hsign)].
    - apply digits_without_digit. intros c Hc.
      by apply Hno, elem_of_strip, Hsub.
    - apply (digits_bad_character c); [|done|].
      + destruct (Hcover c (strip_keeps _ _ Hc (printable_not_space _ Hpr)))
          as [Hs|]; [|done].
        exfalso. apply Hsign. by right.
      + intros ->. apply Hsign. left. }
  destruct (int_literal_cases l) as [->|[(l' & Hl & ->)|(l' & Hl & ->)]].
  - apply Hnone; [by right|done].
  - rewrite Hnone; [done|..]; rewrite Hl.
    + intros c [->|Hc]%elem_of_cons; [left; right; left|by right].
    + intros c Hc. by right.
  - rewrite Hnone; [done|..]; rewrite Hl.
    + intros c [->|Hc]%elem_of_cons; [left; left|by right].
    + intros c Hc. by right.
Qed.

(** X10. Let the argument be an ASCII text. If it has no decimal digit
    at all (empty, blank, a lone sign), or has a printable character that
    is neither a digit, an underscore nor a sign (a letter, a decimal
    point), then it is not an integer: the script prints the usage line
    only and ends with exit status 1. *)
Theorem non_integer_argument_rejected (prog s : string) (more : list string)
    (Hascii : forall c, c ∈ list_ascii_of_string s -> (nat_of_ascii c < 128)%nat)
    (Hbad : (forall c, c ∈ list_ascii_of_string s -> digit_val c = None)
            \/ (exists c, c ∈ list_ascii_of_string s
                          /\ (33 <= nat_of_ascii c <= 126)%nat
                          /\ digit_val c = None
                          /\ c ∉ ["_"; "+"; "-"]%char)) :
  Py.int s = None
  /\ printed (program_checked (prog :: s :: more)) = [usage]
  /\ exit_status (program_checked (prog :: s :: more)) = 1
  /\ program (prog :: s :: more) = program_checked (prog :: s :: more).
Proof.
  pose proof (int_rejects s Hbad) as Hint.
  split; [done|].
  unfold program, program_checked, main, main_checked. simpl. by rewrite Hint.
Qed.

Lemma non_integer_argument_rejected_witness :
  Py.int "1.5" = None
  /\ printed (program_checked ["ImtConflictPerfTestGen.py"; "1.5"]) = [usage]
  /\ exit_status (program_checked ["ImtConflictPerfTestGen.py"; "1.5"]) = 1.
Proof.
  assert (Hascii : forall c, c ∈ list_ascii_of_string "1.5" ->
                             (nat_of_ascii c < 128)%nat).
  { intros c Hc. vm_compute in Hc.
    repeat (apply elem_of_cons in Hc as [->|Hc]; [vm_compute; lia|]).
    by apply elem_of_nil in Hc. }
  destruct (non_integer_argument_rejected "ImtConflictPerfTestGen.py" "1.5" []
              Hascii) as (H1 & H2 & H3 & _).
  - right. exists "."%char.
    split; [vm_compute; right; left|].
    split; [vm_compute; lia|]. split; [reflexivity|].
    apply (bool_decide_unpack _). vm_compute. exact I.
  - exact (conj H1 (conj H2 H3)).
Defined.

(** *** A negative table size *)

Lemma interface_methods_nonpositive imt_size i :
  imt_size <= 0 -> interface_methods imt_size i = [].
Proof.
  intros Hn. unfold interface_methods, range. by rewrite seqZ_nil.
Qed.

Lemma str_negative z : z < 0 -> str z = "-" +:+ str (- z).
Proof. destruct z as [|p|p]; [lia|lia|done]. Qed.

(** X11. A negative [imt_size] is accepted and treated like zero where
    methods are declared: every interface block is empty and, read back
    from its lines, the file declares 20 interfaces and no method. The
    names computed from it keep its sign: the dispatch helper of every
    interface but [I0] is named [callF-] followed by the digits of
    [|imt_size| * i], and calls a method [f-...] that nothing declares. *)
Theorem negative_imt_size (imt_size : Z) (Hneg : imt_size < 0) :
  (forall i, printed (interface_decl imt_size i)
             = ["    interface I" +:+ str i +:+ " {"; "    }"])
  /\ printed (emit_interfaces imt_size) = printed (emit_interfaces 0)
  /\ all_method_indices imt_size = []
  /\ kinds (printed (generate imt_size))
     = [KSetup]
       ++ replicate 20 KTest ++ replicate 20 KHelper ++ replicate 20 KClass
       ++ replicate 20 KInterface
  /\ forall i, 0 < i ->
       printed (dispatch_helper imt_size i)
       = ["    public void callF-" +:+ str (- imt_size * i)
          +:+ "(I" +:+ str i +:+ " i) { i.f-" +:+ str (- imt_size * i)
          +:+ "(); }"].
Proof.
  assert (Hblock : forall i, printed (interface_decl imt_size i)
                   = ["    interface I" +:+ str i +:+ " {"; "    }"]).
  { intros i. rewrite (runs_printed _ _ (interface_decl_runs imt_size i)).
    by rewrite interface_methods_nonpositive by lia. }
  split; [exact Hblock|].
  split.
  { rewrite !(runs_printed _ _ (emit_interfaces_runs _)).
    f_equal. apply list_fmap_ext. intros _ i _.
    by rewrite !interface_methods_nonpositive by lia. }
  split.
  { unfold all_method_indices. rewrite range_max_conflict_depth.
    cbn [fmap list_fmap concat].
    by rewrite !interface_methods_nonpositive by lia. }
  split.
  { rewrite generate_kinds. by rewrite Z2Nat.nonpos by lia. }
  intros i Hi. unfold dispatch_helper, print, printed. cbn [fst].
  rewrite (str_negative (imt_size * i)) by nia.
  replace (- (imt_size * i)) with (- imt_size * i) by lia.
  by rewrite !append_assoc.
Qed.

Lemma negative_imt_size_witness :
  -5 < 0
  /\ printed (dispatch_helper (-5) 3)
     = ["    public void callF-15(I3 i) { i.f-15(); }"].
Proof.
  split; [lia|].
  destruct (negative_imt_size (-5) ltac:(lia)) as (_ & _ & _ & _ & H).
  exact (H 3 ltac:(lia)).
Defined.
